(** * cluster-api-operator: the phase reconciler and the provider webhooks

    A shallow embedding of [controllers/phases.go], of the webhook's
    [validateProviderSpec] and of [internal/webhook/bootstrapprovider_webhook.go],
    followed by the properties of the specification that concern them.

    Layout: the definitions come first (Go values and errors, the imported
    version library, the field-error list, the webhook package, the values
    and collaborators of the controllers, the controllers package, the
    vocabulary of the properties, a concrete scenario); the lemmas and
    theorems follow, and last the theorems applied to the scenario. *)

From Stdlib Require Import ZArith NArith List Ascii String Lia Bool.
From stdpp Require Import base strings gmap list.

(* ================================================================== *)
(** * Part I: definitions *)
(* ================================================================== *)

(** ** Go errors and formatted text *)

(** Go's [error] values are kept structured: [fmt.Errorf] and
    [errors.Errorf] keep their format and operands, [errors.Wrapf] also its
    cause; the sentinels and typed errors of the imported packages are
    constructors of their own, so that [err == wait.ErrWaitTimeout] and
    [apierrors.IsNotFound(err)] can be decided as Go decides them (by
    identity and by the status reason, never by the text). *)
Inductive StatusReason :=
| StatusReasonNotFound
| StatusReasonOther (reason : string).

Inductive ConditionSeverity :=
| ConditionSeverityError
| ConditionSeverityWarning
| ConditionSeverityInfo.

Inductive error : Type :=
| Errorf (format : string) (a : list operand)
| Wrapf (cause : error) (format : string) (a : list operand)
| NumError (Func Num : string) (Err : error)
| ErrRange
| ErrSyntax
| StatusError (reason : StatusReason) (message : string)
| ErrWaitTimeout
| PhaseError (Reason : string) (Type_ : string)
             (Severity : ConditionSeverity) (Err : error)
with operand : Type :=
| opString (s : string)
| opError (e : error).

(** A Go string that the code builds with [fmt.Sprintf]: kept with its
    format and operands, like the errors. *)
Inductive text : Type :=
| Lit (s : string)
| Sprintf_ (format : string) (a : list operand).

(** A Go call returning [(T, error)]. *)
Inductive result (T : Type) : Type :=
| Ok (v : T)
| Err (e : error).
Arguments Ok {T} v.
Arguments Err {T} e.

Module fmt.

(** The [%s] fragment of [fmt.Sprintf] on string operands: [%s] prints
    the next operand, [%%] a percent sign, a [%s] without an operand
    prints [%!s(MISSING)], operands left over are reported in a trailing
    [%!(EXTRA ...)].  Formats with another verb, or [%s] on an operand
    that is not a string, are outside the fragment: [None]. *)
Fixpoint extra (a : list operand) : option string :=
  match a with
  | [] => Some ""
  | opString s :: a' =>
      match extra a' with
      | Some r =>
          Some ("string=" +:+ s +:+
                match a' with [] => "" | _ => ", " +:+ r end)
      | None => None
      end
  | opError _ :: _ => None
  end.

Fixpoint Sprintf (format : string) (a : list operand) : option string :=
  match format with
  | EmptyString =>
      match a with
      | [] => Some ""
      | _ => match extra a with
             | Some r => Some ("%!(EXTRA " +:+ r +:+ ")")
             | None => None
             end
      end
  | String "%" (String "s" format') =>
      match a with
      | opString s :: a' =>
          match Sprintf format' a' with
          | Some r => Some (s +:+ r)
          | None => None
          end
      | opError _ :: _ => None
      | [] =>
          match Sprintf format' [] with
          | Some r => Some ("%!s(MISSING)" +:+ r)
          | None => None
          end
      end
  | String "%" (String "%" format') =>
      match Sprintf format' a with
      | Some r => Some (String "%" r)
      | None => None
      end
  | String "%" _ => None
  | String c format' =>
      match Sprintf format' a with
      | Some r => Some (String c r)
      | None => None
      end
  end.

End fmt.

(** [strings.Contains]. *)
Fixpoint Contains (s substr : string) : bool :=
  String.prefix substr s ||
  match s with
  | EmptyString => false
  | String _ s' => Contains s' substr
  end.

(** ** k8s.io/apimachinery/pkg/util/version

    The version library that the sources import as [versionutil].  It is
    a dependency of the repository, not a part of it; what the phases and
    the webhook call is embedded after the library's [parse] and
    [compareInternal]: [ParseSemantic], [LessThan], [Major] and [Minor],
    with the two regular expressions of the parser written out as
    matchers. *)
Module versionutil.

Record Version := mkVersion {
  components : list N;
  semver : bool;
  preRelease : string;
  buildMetadata : string
}.

(** [\s] of the regular expressions: tab, newline, form feed, carriage
    return, space. *)
Definition isSpace (c : ascii) : bool :=
  let n := N_of_ascii c in
  ((n =? 9) || (n =? 10) || (n =? 12) || (n =? 13) || (n =? 32))%N.

Definition isDigit (c : ascii) : bool :=
  let n := N_of_ascii c in ((48 <=? n) && (n <=? 57))%N.

(** [[0-9A-Za-z-]]. *)
Definition isIdentChar (c : ascii) : bool :=
  let n := N_of_ascii c in
  (isDigit c || ((65 <=? n) && (n <=? 90)) || ((97 <=? n) && (n <=? 122))
   || (n =? 45))%N.

Fixpoint trimLeftSpace (s : string) : string :=
  match s with
  | String c s' => if isSpace c then trimLeftSpace s' else s
  | EmptyString => EmptyString
  end.

Fixpoint allSpace (s : string) : bool :=
  match s with
  | String c s' => isSpace c && allSpace s'
  | EmptyString => true
  end.

Fixpoint hasNewline (s : string) : bool :=
  match s with
  | String c s' => (N_of_ascii c =? 10)%N || hasNewline s'
  | EmptyString => false
  end.

(** Longest prefix made of non-empty runs of the character class [X]
    separated by single dots; the second component is what is left. *)
Fixpoint scanDotted (X : ascii -> bool) (s : string) : string * string :=
  match s with
  | String c s' =>
      if X c then
        let (n, e) := scanDotted X s' in (String c n, e)
      else if (N_of_ascii c =? 46)%N then
        match s' with
        | String d s'' =>
            if X d then
              let (n, e) := scanDotted X s'' in (String c (String d n), e)
            else (EmptyString, s)
        | EmptyString => (EmptyString, s)
        end
      else (EmptyString, s)
  | EmptyString => (EmptyString, EmptyString)
  end.

Definition matchDotted (X : ascii -> bool) (s : string)
  : option (string * string) :=
  match s with
  | String c _ => if X c then Some (scanDotted X s) else None
  | EmptyString => None
  end.

(** [versionMatchRE]: leading white space, an optional [v], the group
    of dotted decimal numbers (greedy), and the group of everything up
    to the end of the text, in which [.] does not match a newline. *)
Definition versionMatchRE (str : string) : option (string * string) :=
  let s := trimLeftSpace str in
  let s := match s with
           | String "v" s' => s'
           | _ => s
           end in
  match matchDotted isDigit s with
  | Some (numbers, extra) =>
      if hasNewline extra then None else Some (numbers, extra)
  | None => None
  end.

(** [extraMatchRE]: an optional [-] with the group of dotted
    pre-release identifiers, an optional [+] with the group of dotted
    build identifiers, white space up to the end of the text.  The
    identifier characters exclude [+], [.] and white space, so the
    greedy match is the only one. *)
Definition extraMatchRE (extra : string) : option (string * string) :=
  let afterPre :=
    match extra with
    | String "-" s =>
        match matchDotted isIdentChar s with
        | Some (pre, rest) => Some (pre, rest)
        | None => None
        end
    | _ => Some (EmptyString, extra)
    end in
  match afterPre with
  | Some (pre, rest) =>
      let afterBuild :=
        match rest with
        | String "+" s =>
            match matchDotted isIdentChar s with
            | Some (build, rest') => Some (build, rest')
            | None => None
            end
        | _ => Some (EmptyString, rest)
        end in
      match afterBuild with
      | Some (build, rest') =>
          if allSpace rest' then Some (pre, build) else None
      | None => None
      end
  | None => None
  end.

(** [strings.Split(s, ".")]. *)
Fixpoint Split (s : string) : list string :=
  match s with
  | EmptyString => [EmptyString]
  | String c s' =>
      if (N_of_ascii c =? 46)%N then EmptyString :: Split s'
      else match Split s' with
           | x :: xs => String c x :: xs
           | [] => [String c EmptyString]
           end
  end.

Definition digitValue (c : ascii) : N := (N_of_ascii c - 48)%N.

Fixpoint allDigits (s : string) : bool :=
  match s with
  | String c s' => isDigit c && allDigits s'
  | EmptyString => true
  end.

Fixpoint decimal (acc : N) (s : string) : N :=
  match s with
  | String c s' => decimal (acc * 10 + digitValue c)%N s'
  | EmptyString => acc
  end.

(** [strconv.ParseUint(s, 10, 0)] on a 64-bit platform. *)
Definition maxUint : N := 18446744073709551615%N.

Definition ParseUint (s : string) : result N :=
  match s with
  | EmptyString => Err (NumError "ParseUint" s ErrSyntax)
  | _ =>
      if allDigits s then
        if (decimal 0 s <=? maxUint)%N then Ok (decimal 0 s)
        else Err (NumError "ParseUint" s ErrRange)
      else Err (NumError "ParseUint" s ErrSyntax)
  end.

Definition zeroPrefixed (comp : string) : bool :=
  String.prefix "0" comp && negb (String.eqb comp "0").

(** The loop of [parse] over the numeric components; [i] is the index
    of the first element of [comps]. *)
Fixpoint parseComponents (str : string) (semver : bool) (i : nat)
    (comps : list string) : result (list N) :=
  match comps with
  | [] => Ok []
  | comp :: comps' =>
      if (Nat.eqb i 0 || semver) && zeroPrefixed comp then
        Err (Errorf "illegal zero-prefixed version component %q in %q"
               [opString comp; opString str])
      else
        match ParseUint comp with
        | Err e =>
            Err (Errorf "illegal non-numeric version component %q in %q: %v"
                   [opString comp; opString str; opError e])
        | Ok num =>
            match parseComponents str semver (S i) comps' with
            | Ok ns => Ok (num :: ns)
            | Err e => Err e
            end
        end
  end.

(** The loop of [parse] over the pre-release identifiers. *)
Fixpoint checkPreRelease (str : string) (comps : list string)
  : option error :=
  match comps with
  | [] => None
  | comp :: comps' =>
      match ParseUint comp with
      | Ok _ =>
          if zeroPrefixed comp then
            Some (Errorf "illegal zero-prefixed version component %q in %q"
                    [opString comp; opString str])
          else checkPreRelease str comps'
      | Err _ => checkPreRelease str comps'
      end
  end.

Definition parse (str : string) (semver : bool) : result Version :=
  match versionMatchRE str with
  | None => Err (Errorf "could not parse %q as version" [opString str])
  | Some (numbers, extra) =>
      let comps := Split numbers in
      if (semver && negb (Nat.eqb (length comps) 3))
         || (negb semver && (length comps <? 2)%nat) then
        Err (Errorf "illegal version string %q" [opString str])
      else
        match parseComponents str semver 0 comps with
        | Err e => Err e
        | Ok ns =>
            if semver && negb (String.eqb extra "") then
              match extraMatchRE extra with
              | None =>
                  Err (Errorf
                         "could not parse pre-release/metadata (%s) in version %q"
                         [opString extra; opString str])
              | Some (pre, build) =>
                  match checkPreRelease str (Split pre) with
                  | Some e => Err e
                  | None => Ok (mkVersion ns semver pre build)
                  end
              end
            else Ok (mkVersion ns semver "" "")
        end
  end.

Definition ParseSemantic (str : string) : result Version := parse str true.

Definition Major (v : Version) : N := nth 0 (components v) 0%N.
Definition Minor (v : Version) : N := nth 1 (components v) 0%N.

Fixpoint onlyZeros (array : list N) : bool :=
  match array with
  | [] => true
  | digit :: array' => (digit =? 0)%N && onlyZeros array'
  end.

(** The first loop of [compareInternal]; [None] when it runs to its
    end without returning. *)
Fixpoint compareComponents (vs os : list N) : option Z :=
  match vs, os with
  | v :: vs', o :: os' =>
      if (o <? v)%N then Some 1%Z
      else if (v <? o)%N then Some (-1)%Z
      else compareComponents vs' os'
  | _, _ => None
  end.

(** The loop of [compareInternal] over the pre-release identifiers. *)
Fixpoint comparePreRelease (vPR oPR : list string) : option Z :=
  match vPR, oPR with
  | v :: vPR', o :: oPR' =>
      let byString :=
        match String.compare o v with
        | Lt => Some 1%Z
        | Gt => Some (-1)%Z
        | Eq => comparePreRelease vPR' oPR'
        end in
      match ParseUint v with
      | Ok vNum =>
          match ParseUint o with
          | Ok oNum =>
              if (oNum <? vNum)%N then Some 1%Z
              else if (vNum <? oNum)%N then Some (-1)%Z
              else comparePreRelease vPR' oPR'
          | Err _ => byString
          end
      | Err _ => byString
      end
  | _, _ => None
  end.

Definition compareInternal (v other : Version) : Z :=
  let vLen := length (components v) in
  let oLen := length (components other) in
  match compareComponents (components v) (components other) with
  | Some r => r
  | None =>
      if (oLen <? vLen)%nat && negb (onlyZeros (drop oLen (components v)))
      then 1%Z
      else if (vLen <? oLen)%nat
              && negb (onlyZeros (drop vLen (components other)))
      then (-1)%Z
      else if negb (semver v) || negb (semver other) then 0%Z
      else if String.eqb (preRelease v) "" && negb (String.eqb (preRelease other) "")
      then 1%Z
      else if negb (String.eqb (preRelease v) "") && String.eqb (preRelease other) ""
      then (-1)%Z
      else if String.eqb (preRelease v) (preRelease other) then 0%Z
      else
        let vPR := Split (preRelease v) in
        let oPR := Split (preRelease other) in
        match comparePreRelease vPR oPR with
        | Some r => r
        | None =>
            if (length oPR <? length vPR)%nat then 1%Z
            else if (length vPR <? length oPR)%nat then (-1)%Z
            else 0%Z
        end
  end.

Definition LessThan (v other : Version) : bool :=
  (compareInternal v other =? -1)%Z.

End versionutil.

(** ** k8s.io/apimachinery/pkg/util/validation/field *)
Module field.

(** A path from the root, root first: [NewPath("spec").Child("version")]
    is [["spec"; "version"]] and prints as [spec.version]. *)
Definition Path := list string.

Definition NewPath (name : string) : Path := [name].
Definition Child (p : Path) (name : string) : Path := p ++ [name].

Fixpoint String_ (p : Path) : string :=
  match p with
  | [] => ""
  | [name] => name
  | name :: p' => name +:+ "." +:+ String_ p'
  end.

Inductive ErrorType :=
| ErrorTypeNotFound
| ErrorTypeRequired
| ErrorTypeDuplicate
| ErrorTypeInvalid
| ErrorTypeNotSupported
| ErrorTypeForbidden
| ErrorTypeTooLong
| ErrorTypeTooMany
| ErrorTypeInternal.

Record Error := mkError {
  Type_ : ErrorType;
  Field : string;
  BadValue : string;
  Detail : text
}.

Definition ErrorList := list Error.

Definition Invalid (field : Path) (value : string) (detail : text) : Error :=
  mkError ErrorTypeInvalid (String_ field) value detail.

End field.

(** ** package webhook *)
Module webhook.

(** [metav1.LabelSelector]; a Go map is [nil] or a map. *)
Record LabelSelectorRequirement := mkRequirement {
  Key : string;
  Operator : string;
  Values : list string
}.

Record LabelSelector := mkLabelSelector {
  MatchLabels : option (gmap string string);
  MatchExpressions : list LabelSelectorRequirement
}.

Section Spec.

(** The fields of [operatorv1.ProviderSpec] that this package does not
    read (the struct is declared outside the sources at hand). *)
Variable Remainder : Type.

Record FetchConfiguration := mkFetchConfiguration {
  URL : string;
  Selector : option LabelSelector
}.

Record ProviderSpec := mkProviderSpec {
  Version : string;
  FetchConfig : option FetchConfiguration;
  remainder : Remainder
}.

Definition selectorAndMatchLabels (spec : ProviderSpec) : bool :=
  match FetchConfig spec with
  | Some fc =>
      match Selector fc with
      | Some sel =>
          match MatchLabels sel with
          | Some _ => true
          | None => false
          end
      | None => false
      end
  | None => false
  end.

Definition validateProviderSpec (spec : ProviderSpec) : field.ErrorList :=
  let allErrs : field.ErrorList := [] in
  let allErrs :=
    if negb (String.eqb (Version spec) "") then
      match versionutil.ParseSemantic (Version spec) with
      | Err err =>
          allErrs ++
          [field.Invalid (field.Child (field.NewPath "spec") "version")
             (Version spec)
             (Sprintf_ "invalid semantic version: %v" [opError err])]
      | Ok _ => allErrs
      end
    else allErrs in
  let allErrs :=
    if selectorAndMatchLabels spec then
      allErrs ++
      [field.Invalid (field.Child (field.NewPath "spec") "fetchConfig")
         (Version spec)
         (Lit "can't use selector and matchlabels, only one option is allowed")]
    else allErrs in
  allErrs.

(** [operatorv1.BootstrapProvider] and the [runtime.Object]s handed to
    the admission webhook: a bootstrap provider, or an object of
    another kind. *)
Record BootstrapProvider := mkBootstrapProvider {
  Namespace : string;
  Name : string;
  Spec : ProviderSpec
}.

Inductive Object :=
| BootstrapProviderObject (o : BootstrapProvider)
| OtherObject (kind : string).

(** [context.Context] is not inspected by this package. *)
Variable Context : Type.

(** [type BootstrapProviderWebhook struct{}]. *)
Record BootstrapProviderWebhook : Set := mkBootstrapProviderWebhook {}.

(** [admission.Warnings] is a list of strings; [nil, nil] is
    [(None, None)]. *)
Definition Warnings := list string.

Definition ValidateCreate (r : BootstrapProviderWebhook) (ctx : Context)
    (obj : Object) : option Warnings * option error :=
  (None, None).

Definition ValidateUpdate (r : BootstrapProviderWebhook) (ctx : Context)
    (oldObj newObj : Object) : option Warnings * option error :=
  (None, None).

Definition ValidateDelete (r : BootstrapProviderWebhook) (_ : Context)
    (obj : Object) : option Warnings * option error :=
  (None, None).

End Spec.

Arguments Version {Remainder}.
Arguments FetchConfig {Remainder}.
Arguments remainder {Remainder}.
Arguments mkProviderSpec {Remainder}.
Arguments selectorAndMatchLabels {Remainder}.
Arguments validateProviderSpec {Remainder}.
Arguments Spec {Remainder}.
Arguments mkBootstrapProvider {Remainder}.
Arguments BootstrapProviderObject {Remainder}.
Arguments OtherObject {Remainder}.
Arguments ValidateCreate {Remainder Context}.
Arguments ValidateUpdate {Remainder Context}.
Arguments ValidateDelete {Remainder Context}.

End webhook.

(** ** Kubernetes and clusterctl values used by the controllers *)

(** [types.NamespacedName], which is also [client.ObjectKey]. *)
Record ObjectKey := mkObjectKey {
  Namespace : string;
  Name : string
}.

Module corev1.

Record ObjectReference := mkObjectReference {
  refKind : string;
  refNamespace : string;
  refName : string
}.

(** [Labels] is a Go map that the code tests against [nil]. *)
Record ConfigMap := mkConfigMap {
  cmNamespace : string;
  cmName : string;
  Labels : option (gmap string string);
  Data : gmap string string
}.

Record Secret := mkSecret {
  secretData : gmap string string
}.

Inductive ConditionStatus := ConditionTrue | ConditionFalse | ConditionUnknown.

End corev1.

Module clusterv1.

Definition ConditionType := string.

Record Condition := mkCondition {
  Type_ : ConditionType;
  Status : corev1.ConditionStatus;
  Severity : option ConditionSeverity;
  Reason : string;
  Message : string
}.

End clusterv1.

Module conditions.

Definition TrueCondition (t : clusterv1.ConditionType) : clusterv1.Condition :=
  clusterv1.mkCondition t corev1.ConditionTrue None "" "".

End conditions.

Module clusterctlv1.

Definition ProviderType := string.

Record Provider := mkProvider {
  Name : string;
  Namespace : string;
  ProviderName : string;
  Type_ : string;
  Version : string;
  WatchedNamespace : string
}.

Record ReleaseSeries := mkReleaseSeries {
  Major : N;
  Minor : N;
  Contract : string
}.

Record Metadata := mkMetadata {
  ReleaseSeries_ : list ReleaseSeries
}.

End clusterctlv1.

Module apierrors.

(** [IsNotFound]: the status reason of the error, looked for through
    the causes of wrapped errors. *)
Fixpoint IsNotFound (err : error) : bool :=
  match err with
  | StatusError StatusReasonNotFound _ => true
  | Wrapf cause _ _ => IsNotFound cause
  | _ => false
  end.

End apierrors.

Module wait.

(** [err == wait.ErrWaitTimeout]: identity with the sentinel. *)
Definition isErrWaitTimeout (err : error) : bool :=
  match err with
  | ErrWaitTimeout => true
  | _ => false
  end.

End wait.

Module reconcile.

Record Result := mkResult {
  Requeue : bool;
  RequeueAfter : Z
}.

Definition empty : Result := mkResult false 0.

End reconcile.

Module operatorv1.

Record FetchConfiguration := mkFetchConfiguration {
  URL : option string;
  ConfigMap : option corev1.ObjectReference
}.

Record ProviderSpec := mkProviderSpec {
  Version : option string;
  SecretName : option string;
  FetchConfig : option FetchConfiguration
}.

Record ProviderStatus := mkProviderStatus {
  Contract : option string;
  Conditions : list clusterv1.Condition;
  ObservedGeneration : Z
}.

End operatorv1.

Module genericprovider.

(** The dynamic type behind [GetObject()]. *)
Inductive ObjectType :=
| CoreProvider
| BootstrapProvider
| ControlPlaneProvider
| InfrastructureProvider.

(** The interface [GenericProvider], as the record of what its getters
    return; the setters rebuild the record. *)
Record GenericProvider := mkGenericProvider {
  GetObject : ObjectType;
  GetName : string;
  GetNamespace : string;
  GetGeneration : Z;
  GetSpec : operatorv1.ProviderSpec;
  GetStatus : operatorv1.ProviderStatus
}.

Definition SetSpec (p : GenericProvider) (spec : operatorv1.ProviderSpec)
  : GenericProvider :=
  mkGenericProvider (GetObject p) (GetName p) (GetNamespace p)
    (GetGeneration p) spec (GetStatus p).

Definition SetStatus (p : GenericProvider)
    (status : operatorv1.ProviderStatus) : GenericProvider :=
  mkGenericProvider (GetObject p) (GetName p) (GetNamespace p)
    (GetGeneration p) (GetSpec p) status.

End genericprovider.

Module repository.

Record ComponentsOptions := mkComponentsOptions {
  Version : string;
  TargetNamespace : string;
  SkipTemplateProcess : bool
}.

(** The interface [Repository], as the record of its methods. *)
Record Repository := mkRepository {
  DefaultVersion : string;
  RootPath : string;
  ComponentsPath : string;
  GetFile : string -> string -> result string
}.

(** Modelled from the spec: clusterctl's [MemoryRepository]
    ([NewMemoryRepository], [WithPaths], [WithFile] and its [Repository]
    methods), which [configmapRepository] builds and which is not among
    the sources.  The spec: an in-memory instance keyed by version and
    path; "[DefaultVersion] returns the single version baked into this
    in-memory instance"; [GetFile(version, path)] yields the bytes of a
    named file for a given version, or an error (whose text the spec
    leaves open). *)
Record MemoryRepository := mkMemoryRepository {
  defaultVersion : string;
  rootPath : string;
  componentsPath : string;
  files : gmap (string * string) string
}.

Definition NewMemoryRepository : MemoryRepository :=
  mkMemoryRepository "" "" "" ∅.

Definition WithPaths (f : MemoryRepository) (rootPath componentsPath : string)
  : MemoryRepository :=
  mkMemoryRepository (defaultVersion f) rootPath componentsPath (files f).

Definition WithFile (f : MemoryRepository) (version path content : string)
  : MemoryRepository :=
  mkMemoryRepository version (rootPath f) (componentsPath f)
    (<[(version, path) := content]> (files f)).

Definition MemoryRepository_GetFile (f : MemoryRepository)
    (version path : string) : result string :=
  match files f !! (version, path) with
  | Some content => Ok content
  | None => Err (Errorf "unable to get files for version %s" [opString version])
  end.

Definition asRepository (f : MemoryRepository) : Repository :=
  mkRepository (defaultVersion f) (rootPath f) (componentsPath f)
    (MemoryRepository_GetFile f).

End repository.

Module cluster.

Record InstallOptions := mkInstallOptions {
  WaitProviders : bool;
  WaitProviderTimeout : Z
}.

Record DeleteOptions := mkDeleteOptions {
  Provider : clusterctlv1.Provider;
  IncludeNamespace : bool;
  IncludeCRDs : bool
}.

End cluster.

(** [client.Client]: [Get(ctx, key, obj)] for the three kinds of object
    the phases read.  [Ok] is a [nil] error with the object found (which
    overwrites [obj]); with [Err], [obj] is left as it was. *)
Record Client := mkClient {
  GetSecret : ObjectKey -> result corev1.Secret;
  GetConfigMap : ObjectKey -> result corev1.ConfigMap;
  GetProvider : ObjectKey -> result clusterctlv1.Provider
}.

Import genericprovider.

(** The clusterctl library and the API machinery, at their interface:
    the types whose values the phases only pass on, and the calls the
    phases make. *)
Class Clusterctl := {
  Reader : Type;
  ConfigClient : Type;
  VariablesClient : Type;
  ProviderConfig : Type;
  Components : Type;
  ComponentsAlterFn : Type;
  RestConfig : Type;
  ClusterClient : Type;
  (* configclient.MemoryReader *)
  NewMemoryReader : Reader;
  Reader_Init : Reader -> string -> result Reader;
  Reader_Set : Reader -> string -> string -> Reader;
  Reader_AddProvider :
    Reader -> string -> clusterctlv1.ProviderType -> string -> result Reader;
  (* configclient *)
  configclient_New : string -> Reader -> result ConfigClient;
  Providers_Get :
    ConfigClient -> string -> clusterctlv1.ProviderType -> result ProviderConfig;
  Variables : ConfigClient -> VariablesClient;
  ManifestLabel : ProviderConfig -> string;
  (* repository *)
  NewGitHubRepository :
    ProviderConfig -> VariablesClient -> result repository.Repository;
  NewComponents :
    option ProviderConfig -> option ConfigClient -> string ->
    repository.ComponentsOptions -> result Components;
  AlterComponents : Components -> ComponentsAlterFn -> option error * Components;
  Components_Version : Components -> string;
  (* runtime.DecodeInto with the universal decoder, into clusterctlv1.Metadata *)
  DecodeInto : string -> result clusterctlv1.Metadata;
  (* GetReleaseSeriesForVersion of clusterctlv1.Metadata; nil is None *)
  GetReleaseSeriesForVersion :
    clusterctlv1.Metadata -> versionutil.Version ->
    option clusterctlv1.ReleaseSeries;
  (* clusterv1.GroupVersion.Version *)
  GroupVersion_Version : string;
  (* cluster.New and the calls made on the client it returns *)
  cluster_New : option ConfigClient -> Client -> RestConfig -> ClusterClient;
  EnsureCustomResourceDefinitions : ClusterClient -> option error;
  Install :
    ClusterClient -> option Components -> cluster.InstallOptions -> option error;
  Delete : ClusterClient -> cluster.DeleteOptions -> option error;
  (* conditions.Set *)
  conditions_Set : GenericProvider -> clusterv1.Condition -> GenericProvider
}.

(** Declarations of this repository that the phases use and that are not
    among the sources: constants of [operatorv1] and of the controllers
    package, [util.ClusterctlProviderType] and [customizeObjectsFn]. *)
Class OperatorAPI `{Clusterctl} := {
  ConfigMapVersionLabelName : string;
  PreflightCheckCondition : clusterv1.ConditionType;
  ProviderInstalledCondition : clusterv1.ConditionType;
  UnknownProviderReason : string;
  CAPIVersionIncompatibilityReason : string;
  ComponentsFetchErrorReason : string;
  OldComponentsDeletionErrorReason : string;
  capiVersionIncompatibilityMessage : string;
  ClusterctlProviderType : GenericProvider -> clusterctlv1.ProviderType;
  customizeObjectsFn : GenericProvider -> ComponentsAlterFn
}.

(** ** package controllers: phases.go *)
Module controllers.

Section Phases.

Context `{library : Clusterctl} `{api : !OperatorAPI}.

Definition metadataFile : string := "metadata.yaml".

(** [phaseReconciler] holds all required information for interacting
    with clusterctl code.  The interface-typed fields are [nil] until
    a phase sets them. *)
Record phaseReconciler := mkPhaseReconciler {
  provider : GenericProvider;
  providerList : list GenericProvider;
  ctrlClient : Client;
  ctrlConfig : RestConfig;
  repo : option repository.Repository;
  contract : string;
  options : repository.ComponentsOptions;
  providerConfig : option ProviderConfig;
  configClient : option ConfigClient;
  components : option Components;
  clusterctlProvider : clusterctlv1.Provider
}.

Definition set_provider (v : GenericProvider) (p : phaseReconciler) :=
  mkPhaseReconciler v (providerList p) (ctrlClient p) (ctrlConfig p)
    (repo p) (contract p) (options p) (providerConfig p) (configClient p)
    (components p) (clusterctlProvider p).
Definition set_repo (v : option repository.Repository) (p : phaseReconciler) :=
  mkPhaseReconciler (provider p) (providerList p) (ctrlClient p)
    (ctrlConfig p) v (contract p) (options p) (providerConfig p)
    (configClient p) (components p) (clusterctlProvider p).
Definition set_contract (v : string) (p : phaseReconciler) :=
  mkPhaseReconciler (provider p) (providerList p) (ctrlClient p)
    (ctrlConfig p) (repo p) v (options p) (providerConfig p)
    (configClient p) (components p) (clusterctlProvider p).
Definition set_options (v : repository.ComponentsOptions) (p : phaseReconciler) :=
  mkPhaseReconciler (provider p) (providerList p) (ctrlClient p)
    (ctrlConfig p) (repo p) (contract p) v (providerConfig p)
    (configClient p) (components p) (clusterctlProvider p).
Definition set_providerConfig (v : option ProviderConfig) (p : phaseReconciler) :=
  mkPhaseReconciler (provider p) (providerList p) (ctrlClient p)
    (ctrlConfig p) (repo p) (contract p) (options p) v
    (configClient p) (components p) (clusterctlProvider p).
Definition set_configClient (v : option ConfigClient) (p : phaseReconciler) :=
  mkPhaseReconciler (provider p) (providerList p) (ctrlClient p)
    (ctrlConfig p) (repo p) (contract p) (options p) (providerConfig p)
    v (components p) (clusterctlProvider p).
Definition set_components (v : option Components) (p : phaseReconciler) :=
  mkPhaseReconciler (provider p) (providerList p) (ctrlClient p)
    (ctrlConfig p) (repo p) (contract p) (options p) (providerConfig p)
    (configClient p) v (clusterctlProvider p).
Definition set_clusterctlProvider (v : clusterctlv1.Provider) (p : phaseReconciler) :=
  mkPhaseReconciler (provider p) (providerList p) (ctrlClient p)
    (ctrlConfig p) (repo p) (contract p) (options p) (providerConfig p)
    (configClient p) (components p) v.

(** *** The calls a phase makes on its collaborators *)
Inductive Call :=
| CallGetSecret (key : ObjectKey)
| CallGetConfigMap (key : ObjectKey)
| CallGetProvider (key : ObjectKey)
| CallGetFile (version path : string)
| CallEnsureCustomResourceDefinitions
| CallInstall (c : option Components) (o : cluster.InstallOptions)
| CallDelete (o : cluster.DeleteOptions).

(** *** The monad of the phases

    A method of [*phaseReconciler] reads and writes the reconciler,
    calls collaborators (recorded in call order), and either returns
    or panics on a [nil] interface. *)
Record State := mkState {
  self : phaseReconciler;
  calls : list Call
}.

Inductive outcome (A : Type) : Type :=
| Returns (a : A) (st : State)
| Panics.
Arguments Returns {A} a st.
Arguments Panics {A}.

Definition M (A : Type) : Type := State -> outcome A.

Definition ret {A} (a : A) : M A := fun st => Returns a st.

Definition bind {A B} (m : M A) (k : A -> M B) : M B :=
  fun st =>
    match m st with
    | Returns a st' => k a st'
    | Panics => Panics
    end.

Definition get : M phaseReconciler := fun st => Returns (self st) st.

Definition modify (f : phaseReconciler -> phaseReconciler) : M unit :=
  fun st => Returns tt (mkState (f (self st)) (calls st)).

Definition record (c : Call) : M unit :=
  fun st => Returns tt (mkState (self st) (calls st ++ [c])).

Definition panic {A} : M A := fun _ => Panics.

(** Dereference of an interface value. *)
Definition deref {A} (o : option A) : M A :=
  match o with
  | Some a => ret a
  | None => panic
  end.

Notation "x <- c1 ;; c2" := (bind c1 (fun x => c2))
  (at level 100, c1 at next level, right associativity).
Notation "c1 ;;; c2" := (bind c1 (fun _ => c2))
  (at level 100, right associativity).

(** *** PhaseError *)
Definition wrapPhaseError (err : option error) (reason : string)
    (ctype : clusterv1.ConditionType) : option error :=
  match err with
  | None => None
  | Some err =>
      Some (PhaseError reason ctype ConditionSeverityWarning err)
  end.

Definition clusterctlProviderName (provider : GenericProvider) : ObjectKey :=
  let prefix :=
    match GetObject provider with
    | BootstrapProvider => "bootstrap-"
    | ControlPlaneProvider => "control-plane-"
    | InfrastructureProvider => "infrastructure-"
    | CoreProvider => ""
    end in
  mkObjectKey (GetNamespace provider) (prefix +:+ GetName provider).

(** [newClusterClient] returns a clusterctl client for interacting
    with the management cluster. *)
Definition newClusterClient (s : phaseReconciler) : ClusterClient :=
  cluster_New (configClient s) (ctrlClient s) (ctrlConfig s).

(** *** secretReader *)
Definition secretReader (provider : GenericProvider) : M (result Reader) :=
  s <- get ;;
  let mr := NewMemoryReader in
  match Reader_Init mr "" with
  | Err err => ret (Err err)
  | Ok mr =>
      let addProvider (mr : Reader) : M (result Reader) :=
        match operatorv1.FetchConfig (GetSpec provider) with
        | Some fc =>
            match operatorv1.URL fc with
            | Some url =>
                ret (Reader_AddProvider mr (GetName provider)
                       (ClusterctlProviderType provider) url)
            | None => ret (Ok mr)
            end
        | None => ret (Ok mr)
        end in
      match operatorv1.SecretName (GetSpec provider) with
      | Some secretName =>
          let key := mkObjectKey (GetNamespace provider) secretName in
          record (CallGetSecret key) ;;;
          match GetSecret (ctrlClient s) key with
          | Err err => ret (Err err)
          | Ok secret =>
              addProvider
                (map_fold (fun k v mr => Reader_Set mr k v) mr
                   (corev1.secretData secret))
          end
      | None => addProvider mr
      end
  end.

(** *** configmapRepository *)
Definition configmapRepository (configMapRef : option corev1.ObjectReference)
  : M (result repository.Repository) :=
  s <- get ;;
  match configMapRef with
  | None => ret (Err (Errorf "configmap reference is nil" []))
  | Some configMapRef =>
      let mr := repository.NewMemoryRepository in
      let mr := repository.WithPaths mr "" "components.yaml" in
      let key := mkObjectKey (corev1.refNamespace configMapRef)
                   (corev1.refName configMapRef) in
      record (CallGetConfigMap key) ;;;
      match GetConfigMap (ctrlClient s) key with
      | Err err => ret (Err err)
      | Ok cm =>
          let version := corev1.cmName cm in
          let errMsg := "from the Name" in
          let '(version, errMsg) :=
            match corev1.Labels cm with
            | Some labels =>
                match labels !! ConfigMapVersionLabelName with
                | Some ver =>
                    (ver, "from the Label " +:+ ConfigMapVersionLabelName)
                | None => (version, errMsg)
                end
            | None => (version, errMsg)
            end in
          match versionutil.ParseSemantic version with
          | Err _ =>
              ret (Err (Errorf "ConfigMap %s/%s has invalid version:%s (%s)"
                          [opString (corev1.cmNamespace cm);
                           opString (corev1.cmName cm);
                           opString version; opString errMsg]))
          | Ok _ =>
              match corev1.Data cm !! "metadata" with
              | None =>
                  ret (Err (Errorf "ConfigMap %s/%s has no metadata"
                              [opString (corev1.cmNamespace cm);
                               opString (corev1.cmName cm)]))
              | Some metadata =>
                  let mr := repository.WithFile mr version metadataFile
                              metadata in
                  match corev1.Data cm !! "components" with
                  | None =>
                      ret (Err (Errorf "ConfigMap %s/%s has no components"
                                  [opString (corev1.cmNamespace cm);
                                   opString (corev1.cmName cm)]))
                  | Some components =>
                      let mr := repository.WithFile mr version
                                  (repository.componentsPath mr)
                                  components in
                      ret (Ok (repository.asRepository mr))
                  end
              end
          end
      end
  end.

(** [repo.GetFile], recorded. *)
Definition getFile (r : repository.Repository) (version path : string)
  : M (result string) :=
  record (CallGetFile version path) ;;;
  ret (repository.GetFile r version path).

(** *** validateRepoCAPIVersion *)
Definition validateRepoCAPIVersion (provider : GenericProvider)
  : M (option error) :=
  s <- get ;;
  let name := GetName provider in
  r <- deref (repo s) ;;
  file <- getFile r (repository.Version (options s)) metadataFile ;;
  match file with
  | Err err =>
      ret (Some (Wrapf err
                   "failed to read %q from the repository for provider %q"
                   [opString metadataFile; opString name]))
  | Ok file =>
      match DecodeInto file with
      | Err err =>
          ret (Some (Wrapf err "error decoding %q for provider %q"
                       [opString metadataFile; opString name]))
      | Ok latestMetadata =>
          match versionutil.ParseSemantic (repository.Version (options s)) with
          | Err err =>
              ret (Some (Wrapf err
                           "failed to parse current version for the %s provider"
                           [opString name]))
          | Ok currentVersion =>
              match GetReleaseSeriesForVersion latestMetadata
                      currentVersion with
              | None =>
                  ret (Some (Errorf
                    "invalid provider metadata: version %s for the provider %s does not match any release series"
                    [opString (repository.Version (options s));
                     opString name]))
              | Some releaseSeries =>
                  if negb (String.eqb (clusterctlv1.Contract releaseSeries)
                             "v1alpha4")
                     && negb (String.eqb (clusterctlv1.Contract releaseSeries)
                                "v1beta1")
                  then
                    ret (Some (Errorf capiVersionIncompatibilityMessage
                                 [opString GroupVersion_Version;
                                  opString (clusterctlv1.Contract releaseSeries);
                                  opString name]))
                  else
                    modify (set_contract (clusterctlv1.Contract releaseSeries)) ;;;
                    ret None
              end
          end
      end
  end.

(** [err != nil]. *)
Definition notNil (err : option error) : bool :=
  match err with
  | Some _ => true
  | None => false
  end.

Definition toOption {A} (r : result A) : option A :=
  match r with
  | Ok a => Some a
  | Err _ => None
  end.

Definition set_options_Version (v : string) (p : phaseReconciler) :=
  set_options
    (repository.mkComponentsOptions v
       (repository.TargetNamespace (options p))
       (repository.SkipTemplateProcess (options p))) p.

(** *** load

    [load] provider specific configuration into the [phaseReconciler]
    object.  An assignment [p.x, err = f()] stores [nil] in [p.x] when
    [f] fails. *)
Definition load : M (reconcile.Result * option error) :=
  p <- get ;;
  reader <- secretReader (provider p) ;;
  match reader with
  | Err err =>
      ret (reconcile.empty,
           wrapPhaseError (Some err) "failed to load the secret reader"
             PreflightCheckCondition)
  | Ok reader =>
      let cc := configclient_New "" reader in
      modify (set_configClient (toOption cc)) ;;;
      match cc with
      | Err err => ret (reconcile.empty, Some err)
      | Ok cc =>
          let pc := Providers_Get cc (GetName (provider p))
                      (ClusterctlProviderType (provider p)) in
          modify (set_providerConfig (toOption pc)) ;;;
          match pc with
          | Err err =>
              ret (reconcile.empty,
                   wrapPhaseError (Some err) UnknownProviderReason
                     PreflightCheckCondition)
          | Ok pc =>
              let spec := GetSpec (provider p) in
              let configMap :=
                match operatorv1.FetchConfig spec with
                | Some fc => operatorv1.ConfigMap fc
                | None => None
                end in
              r <- match configMap with
                   | Some _ => configmapRepository configMap
                   | None => ret (NewGitHubRepository pc (Variables cc))
                   end ;;
              modify (set_repo (toOption r)) ;;;
              match r with
              | Err err =>
                  ret (reconcile.empty,
                       wrapPhaseError (Some err)
                         "failed to load the repository"
                         PreflightCheckCondition)
              | Ok r =>
                  modify (set_options
                            (repository.mkComponentsOptions
                               (repository.DefaultVersion r)
                               (GetNamespace (provider p)) false)) ;;;
                  match operatorv1.Version spec with
                  | Some v => modify (set_options_Version v)
                  | None => ret tt
                  end ;;;
                  err <- validateRepoCAPIVersion (provider p) ;;
                  match err with
                  | Some err =>
                      ret (reconcile.empty,
                           wrapPhaseError (Some err)
                             CAPIVersionIncompatibilityReason
                             PreflightCheckCondition)
                  | None => ret (reconcile.empty, None)
                  end
              end
          end
      end
  end.

(** *** fetch

    [fetch] fetches the provider components from the repository and
    processes all yaml manifests. *)
Definition fetch : M (reconcile.Result * option error) :=
  p <- get ;;
  r <- deref (repo p) ;;
  componentsFile <-
    getFile r (repository.Version (options p)) (repository.ComponentsPath r) ;;
  match componentsFile with
  | Err err =>
      pc <- deref (providerConfig p) ;;
      let err :=
        Errorf "failed to read %q from provider's repository %q: %w"
          [opString (repository.ComponentsPath r);
           opString (ManifestLabel pc); opError err] in
      ret (reconcile.empty,
           wrapPhaseError (Some err) ComponentsFetchErrorReason
             PreflightCheckCondition)
  | Ok componentsFile =>
      let c := NewComponents (providerConfig p) (configClient p)
                 componentsFile (options p) in
      modify (set_components (toOption c)) ;;;
      match c with
      | Err err =>
          ret (reconcile.empty,
               wrapPhaseError (Some err) ComponentsFetchErrorReason
                 PreflightCheckCondition)
      | Ok c =>
          let '(err, c) := AlterComponents c (customizeObjectsFn (provider p)) in
          modify (set_components (Some c)) ;;;
          match err with
          | Some err =>
              ret (reconcile.empty,
                   wrapPhaseError (Some err) ComponentsFetchErrorReason
                     PreflightCheckCondition)
          | None =>
              modify (set_provider
                        (conditions_Set (provider p)
                           (conditions.TrueCondition PreflightCheckCondition))) ;;;
              ret (reconcile.empty, None)
          end
      end
  end.

(** *** updateRequiresPreDeletion

    Get the clusterctl Provider and compare its version with the
    version of the components. *)
Definition updateRequiresPreDeletion (provider : GenericProvider)
  : M (bool * option error) :=
  s <- get ;;
  record (CallGetProvider (clusterctlProviderName provider)) ;;;
  match GetProvider (ctrlClient s) (clusterctlProviderName provider) with
  | Err err =>
      if apierrors.IsNotFound err then ret (false, None)
      else ret (false, Some err)
  | Ok found =>
      modify (set_clusterctlProvider found) ;;;
      if String.eqb (clusterctlv1.Version found) "" then ret (false, None)
      else
        c <- deref (components s) ;;
        match versionutil.ParseSemantic (Components_Version c) with
        | Err err => ret (false, Some err)
        | Ok nextVersion =>
            match versionutil.ParseSemantic (clusterctlv1.Version found) with
            | Err err => ret (false, Some err)
            | Ok currentVersion =>
                ret (versionutil.LessThan currentVersion nextVersion, None)
            end
        end
  end.

(** *** delete

    [delete] deletes the provider components using the clusterctl
    library. *)
Definition delete : M (reconcile.Result * option error) :=
  p <- get ;;
  let clusterClient := newClusterClient p in
  let old := clusterctlProvider p in
  let target :=
    clusterctlv1.mkProvider
      (Name (clusterctlProviderName (provider p)))
      (GetNamespace (provider p))
      (GetName (provider p))
      (ClusterctlProviderType (provider p))
      (if String.eqb (clusterctlv1.Version old) ""
       then repository.Version (options p)
       else clusterctlv1.Version old)
      (clusterctlv1.WatchedNamespace old) in
  modify (set_clusterctlProvider target) ;;;
  let o := cluster.mkDeleteOptions target false false in
  record (CallDelete o) ;;;
  let err := Delete clusterClient o in
  ret (reconcile.empty,
       wrapPhaseError err OldComponentsDeletionErrorReason
         ProviderInstalledCondition).

(** *** preInstall

    [preInstall] ensures all the clusterctl CRDs are available before
    installing the provider, and deletes existing components if
    required for upgrade. *)
Definition preInstall : M (reconcile.Result * option error) :=
  p <- get ;;
  let clusterClient := newClusterClient p in
  record CallEnsureCustomResourceDefinitions ;;;
  match EnsureCustomResourceDefinitions clusterClient with
  | Some err =>
      ret (reconcile.empty,
           wrapPhaseError (Some err) "failed installing clusterctl CRDs"
             ProviderInstalledCondition)
  | None =>
      r <- updateRequiresPreDeletion (provider p) ;;
      let '(needPreDelete, err) := r in
      if notNil err || negb needPreDelete then
        ret (reconcile.empty,
             wrapPhaseError err "failed getting clusterctl Provider"
               ProviderInstalledCondition)
      else delete
  end.

(** *** install

    [install] installs the provider components using the clusterctl
    library. *)
Definition install : M (reconcile.Result * option error) :=
  p <- get ;;
  let clusterClient := newClusterClient p in
  let o := cluster.mkInstallOptions false 0 in
  record (CallInstall (components p) o) ;;;
  match Install clusterClient (components p) o with
  | Some err =>
      let reason :=
        if wait.isErrWaitTimeout err
        then "Timedout waiting for deployment to become ready"
        else "Install failed" in
      ret (reconcile.empty,
           wrapPhaseError (Some err) reason ProviderInstalledCondition)
  | None =>
      let spec := GetSpec (provider p) in
      match operatorv1.Version spec with
      | None =>
          c <- deref (components p) ;;
          modify (set_provider
                    (SetSpec (provider p)
                       (operatorv1.mkProviderSpec
                          (Some (Components_Version c))
                          (operatorv1.SecretName spec)
                          (operatorv1.FetchConfig spec))))
      | Some _ => ret tt
      end ;;;
      p <- get ;;
      let status := GetStatus (provider p) in
      let status :=
        operatorv1.mkProviderStatus (Some (contract p))
          (operatorv1.Conditions status) (GetGeneration (provider p)) in
      modify (set_provider (SetStatus (provider p) status)) ;;;
      p <- get ;;
      modify (set_provider
                (conditions_Set (provider p)
                   (conditions.TrueCondition ProviderInstalledCondition))) ;;;
      ret (reconcile.empty, None)
  end.

End Phases.

Arguments Returns {_ A} a st.
Arguments Panics {_ A}.

End controllers.


(** ** Vocabulary of the properties

    Names for what the theorems of the second part speak of: the errors
    the validation appends, the state after a call, the identity that is
    deleted, what is built from a config map, the reads of the
    repository. *)

Section WebhookVocabulary.

Context {Remainder : Type}.

Implicit Types (spec : webhook.ProviderSpec Remainder).

Definition versionPath : field.Path :=
  field.Child (field.NewPath "spec") "version".

Definition fetchConfigPath : field.Path :=
  field.Child (field.NewPath "spec") "fetchConfig".

(** The error that [validateProviderSpec] appends for the version. *)
Definition invalidVersion spec (err : error) : field.Error :=
  field.Invalid versionPath (webhook.Version spec)
    (Sprintf_ "invalid semantic version: %v" [opError err]).

(** The error that [validateProviderSpec] appends for the fetch
    configuration. *)
Definition selectorConflict spec : field.Error :=
  field.Invalid fetchConfigPath (webhook.Version spec)
    (Lit "can't use selector and matchlabels, only one option is allowed").

End WebhookVocabulary.

(** A text without a verb. *)
Fixpoint literal (t : string) : bool :=
  match t with
  | EmptyString => true
  | String c t' => negb (Ascii.eqb c "%") && literal t'
  end.

Section PhaseVocabulary.

Context `{library : Clusterctl} `{api : !OperatorAPI}.

Import controllers.

Implicit Types (st : State) (p : phaseReconciler) (provider : GenericProvider).

(** The state after a phase has made the call [c] and left the
    reconciler as [p]. *)
Definition after st p (c : Call) : State := mkState p (calls st ++ [c]).

(** The identity that [delete] hands to the installer. *)
Definition deleteTarget p : clusterctlv1.Provider :=
  clusterctlv1.mkProvider
    (Name (clusterctlProviderName (provider p)))
    (GetNamespace (provider p))
    (GetName (provider p))
    (ClusterctlProviderType (provider p))
    (if String.eqb (clusterctlv1.Version (clusterctlProvider p)) ""
     then repository.Version (options p)
     else clusterctlv1.Version (clusterctlProvider p))
    (clusterctlv1.WatchedNamespace (clusterctlProvider p)).

Definition configMapKey (ref : corev1.ObjectReference) : ObjectKey :=
  mkObjectKey (corev1.refNamespace ref) (corev1.refName ref).

(** The value of the version label of a config map, if it has one. *)
Definition versionLabel (cm : corev1.ConfigMap) : option string :=
  match corev1.Labels cm with
  | Some labels => labels !! ConfigMapVersionLabelName
  | None => None
  end.

Definition invalidVersionError (cm : corev1.ConfigMap) (version source : string)
  : error :=
  Errorf "ConfigMap %s/%s has invalid version:%s (%s)"
    [opString (corev1.cmNamespace cm); opString (corev1.cmName cm);
     opString version; opString source].

Definition missingKeyError (cm : corev1.ConfigMap) (key : string) : error :=
  Errorf ("ConfigMap %s/%s has no " +:+ key)
    [opString (corev1.cmNamespace cm); opString (corev1.cmName cm)].

(** The repository [configmapRepository] builds from one version and the
    two files. *)
Definition builtRepository (version metadata components : string)
  : repository.Repository :=
  let mr := repository.WithPaths repository.NewMemoryRepository ""
              "components.yaml" in
  let mr := repository.WithFile mr version metadataFile metadata in
  let mr := repository.WithFile mr version (repository.componentsPath mr)
              components in
  repository.asRepository mr.

(** What [configmapRepository] returns on a config map, from the version
    it derives and the source it names in the error text. *)
Definition built (cm : corev1.ConfigMap) (version source : string)
  : result repository.Repository :=
  match versionutil.ParseSemantic version with
  | Err _ => Err (invalidVersionError cm version source)
  | Ok _ =>
      match corev1.Data cm !! "metadata" with
      | None => Err (missingKeyError cm "metadata")
      | Some metadata =>
          match corev1.Data cm !! "components" with
          | None => Err (missingKeyError cm "components")
          | Some components => Ok (builtRepository version metadata components)
          end
      end
  end.

(** What C6 says of a config map, for the [version] derived and the
    [source] named: an invalid version is reported with that source, and
    a valid one, with both files present, gives a repository whose default
    version is [version] and which serves the two files at it. *)
Definition derives st ref (cm : corev1.ConfigMap) (version source : string)
  : Prop :=
  let looked := after st (self st) (CallGetConfigMap (configMapKey ref)) in
  (∀ err,
     versionutil.ParseSemantic version = Err err →
     configmapRepository (Some ref) st =
       Returns (Err (invalidVersionError cm version source)) looked
     ∧ fmt.Sprintf "ConfigMap %s/%s has invalid version:%s (%s)"
         [opString (corev1.cmNamespace cm); opString (corev1.cmName cm);
          opString version; opString source]
       = Some ("ConfigMap " +:+ corev1.cmNamespace cm +:+ "/"
               +:+ corev1.cmName cm +:+ " has invalid version:" +:+ version
               +:+ " (" +:+ source +:+ ")"))
  ∧ (∀ v metadata components,
       versionutil.ParseSemantic version = Ok v →
       corev1.Data cm !! "metadata" = Some metadata →
       corev1.Data cm !! "components" = Some components →
       ∃ r,
         configmapRepository (Some ref) st = Returns (Ok r) looked
         ∧ repository.DefaultVersion r = version
         ∧ repository.GetFile r version metadataFile = Ok metadata
         ∧ repository.GetFile r version (repository.ComponentsPath r)
           = Ok components).

(** The contracts the operator accepts. *)
Definition allowed (contract : string) : Prop :=
  contract = "v1alpha4" ∨ contract = "v1beta1".

(** The phases after [load]. *)
Definition laterPhases : list (M (reconcile.Result * option error)) :=
  [fetch; preInstall; install; delete].

(** The repository reads among the calls: version and path. *)
Fixpoint reads (cs : list Call) : list (string * string) :=
  match cs with
  | [] => []
  | CallGetFile version path :: cs' => (version, path) :: reads cs'
  | _ :: cs' => reads cs'
  end.

(** The step of [load] that selects and builds the repository: from the
    config map named by the fetch configuration, or else from GitHub. *)
Definition selectRepository provider (pc : ProviderConfig) (cc : ConfigClient)
  : M (result repository.Repository) :=
  let configMap :=
    match operatorv1.FetchConfig (GetSpec provider) with
    | Some fc => operatorv1.ConfigMap fc
    | None => None
    end in
  match configMap with
  | Some _ => configmapRepository configMap
  | None => ret (NewGitHubRepository pc (Variables cc))
  end.

(** The state in which [load] selects the repository. *)
Definition configured st (cc : ConfigClient) (pc : ProviderConfig) : State :=
  mkState (set_providerConfig (Some pc) (set_configClient (Some cc) (self st)))
    (calls st).

(** The target version of a pass. *)
Definition targetVersion provider (r : repository.Repository) : string :=
  match operatorv1.Version (GetSpec provider) with
  | Some v => v
  | None => repository.DefaultVersion r
  end.

End PhaseVocabulary.

(** ** A concrete scenario

    Values for the collaborators and for the declarations taken as
    parameters above, on which the theorems can be run: a fake cluster
    client that answers with the results it was given, a decoder that
    reads the metadata file as the contract of the release series 1.0
    and 2.0, a release series found by its major and minor numbers, and a
    remote repository that serves version v2.0.0. *)
Module scenario.

Record FakeCluster := mkFakeCluster {
  ensureResult : option error;
  installResult : option error;
  deleteResult : option error
}.

Definition remoteFiles : gmap (string * string) string :=
  {[ ("v2.0.0", "metadata.yaml") := "v1beta1";
     ("v2.0.0", "components.yaml") := "kind: Deployment" ]}.

Definition remoteRepository : repository.Repository :=
  repository.asRepository
    (repository.mkMemoryRepository "v2.0.0" "" "components.yaml" remoteFiles).

(** The first release series of the document with the major and minor
    numbers of [version]. *)
Fixpoint seriesFor (version : versionutil.Version)
    (series : list clusterctlv1.ReleaseSeries)
  : option clusterctlv1.ReleaseSeries :=
  match series with
  | [] => None
  | releaseSeries :: series' =>
      if (versionutil.Major version =? clusterctlv1.Major releaseSeries)%N
         && (versionutil.Minor version =? clusterctlv1.Minor releaseSeries)%N
      then Some releaseSeries
      else seriesFor version series'
  end.

Definition fakeClusterctl : Clusterctl := {|
  Reader := list (string * string);
  ConfigClient := list (string * string);
  VariablesClient := list (string * string);
  ProviderConfig := string;
  Components := string;
  ComponentsAlterFn := unit;
  RestConfig := FakeCluster;
  ClusterClient := FakeCluster;
  NewMemoryReader := [];
  Reader_Init := fun mr _ => Ok mr;
  Reader_Set := fun mr k v => (k, v) :: mr;
  Reader_AddProvider := fun mr name _ url => Ok ((name, url) :: mr);
  configclient_New := fun _ reader => Ok reader;
  Providers_Get := fun _ name _ => Ok name;
  Variables := fun cc => cc;
  ManifestLabel := fun pc => pc;
  NewGitHubRepository := fun _ _ => Ok remoteRepository;
  NewComponents := fun _ _ _ o => Ok (repository.Version o);
  AlterComponents := fun c _ => (None, c);
  Components_Version := fun c => c;
  DecodeInto := fun file =>
    Ok (clusterctlv1.mkMetadata
          [clusterctlv1.mkReleaseSeries 1 0 file;
           clusterctlv1.mkReleaseSeries 2 0 file]);
  GetReleaseSeriesForVersion := fun m version =>
    seriesFor version (clusterctlv1.ReleaseSeries_ m);
  GroupVersion_Version := "v1beta1";
  cluster_New := fun _ _ cfg => cfg;
  EnsureCustomResourceDefinitions := ensureResult;
  Install := fun c _ _ => installResult c;
  Delete := fun c _ => deleteResult c;
  conditions_Set := fun p c =>
    SetStatus p
      (operatorv1.mkProviderStatus
         (operatorv1.Contract (GetStatus p))
         (c :: operatorv1.Conditions (GetStatus p))
         (operatorv1.ObservedGeneration (GetStatus p)))
|}.

Definition fakeAPI : @OperatorAPI fakeClusterctl := {|
  ConfigMapVersionLabelName := "provider.cluster.x-k8s.io/version";
  PreflightCheckCondition := "PreflightCheckPassed";
  ProviderInstalledCondition := "ProviderInstalled";
  UnknownProviderReason := "UnknownProvider";
  CAPIVersionIncompatibilityReason := "CAPIVersionIncompatibility";
  ComponentsFetchErrorReason := "ComponentsFetchError";
  OldComponentsDeletionErrorReason := "OldComponentsDeletionError";
  capiVersionIncompatibilityMessage :=
    "CAPI operator is only compatible with %s providers, detected %s for provider %s.";
  ClusterctlProviderType := fun p =>
    match GetObject p with
    | CoreProvider => "CoreProvider"
    | BootstrapProvider => "BootstrapProvider"
    | ControlPlaneProvider => "ControlPlaneProvider"
    | InfrastructureProvider => "InfrastructureProvider"
    end;
  customizeObjectsFn := fun _ => (tt : @ComponentsAlterFn fakeClusterctl)
|}.

Definition notFound : error :=
  StatusError StatusReasonNotFound "providers.clusterctl.cluster.x-k8s.io not found".

(** A cluster that holds the given config maps and provider records and
    no secret. *)
Definition clusterWith (configMaps : gmap (string * string) corev1.ConfigMap)
    (records : gmap (string * string) clusterctlv1.Provider) : Client :=
  mkClient
    (fun _ => Err notFound)
    (fun key =>
       match configMaps !! (Namespace key, Name key) with
       | Some cm => Ok cm
       | None => Err notFound
       end)
    (fun key =>
       match records !! (Namespace key, Name key) with
       | Some r => Ok r
       | None => Err notFound
       end).

Definition healthy : FakeCluster := mkFakeCluster None None None.

(** An infrastructure provider [aws] in [capa-system]. *)
Definition aws (spec : operatorv1.ProviderSpec) : GenericProvider :=
  mkGenericProvider InfrastructureProvider "aws" "capa-system" 1 spec
    (operatorv1.mkProviderStatus None [] 0).

Definition unpinned : operatorv1.ProviderSpec :=
  operatorv1.mkProviderSpec None None None.

Definition noRecord : clusterctlv1.Provider :=
  clusterctlv1.mkProvider "" "" "" "" "" "".

Definition record_ (version : string) : clusterctlv1.Provider :=
  clusterctlv1.mkProvider "infrastructure-aws" "capa-system" "aws"
    "InfrastructureProvider" version "".

(** A reconciler as [newReconcilePhases] returns it, then with the fields
    the earlier phases of a pass would have set. *)
Definition reconciler (provider : GenericProvider) (c : Client)
    (cfg : FakeCluster) : @controllers.phaseReconciler fakeClusterctl :=
  @controllers.mkPhaseReconciler fakeClusterctl provider [] c cfg None ""
    (repository.mkComponentsOptions "" "" false) None None None noRecord.

Definition start (p : @controllers.phaseReconciler fakeClusterctl)
  : @controllers.State fakeClusterctl :=
  @controllers.mkState fakeClusterctl p [].

(** The reconciler later in a pass: with the repository and the target
    version that [load] stores, with the components that [fetch] stores. *)
Definition withRepository (r : repository.Repository) (version : string)
    (p : @controllers.phaseReconciler fakeClusterctl) :=
  @controllers.set_options fakeClusterctl
    (repository.mkComponentsOptions version "capa-system" false)
    (@controllers.set_repo fakeClusterctl (Some r) p).

Definition withComponents (version : string)
    (p : @controllers.phaseReconciler fakeClusterctl) :=
  @controllers.set_components fakeClusterctl (Some version) p.

(** A cluster whose record of [aws] has the given version, and a pass
    that has fetched the components of version [next]. *)
Definition recorded (version : string) : Client :=
  clusterWith ∅ {[ ("capa-system", "infrastructure-aws") := record_ version ]}.

Definition upgrade (current next : string) : @controllers.State fakeClusterctl :=
  start (withComponents next (reconciler (aws unpinned) (recorded current) healthy)).

(** Config maps in [capa-system], each stored under its own name. *)
Definition bothFiles : gmap string string :=
  {[ "metadata" := "v1beta1"; "components" := "kind: Deployment" ]}.

Definition onlyComponents : gmap string string :=
  {[ "components" := "kind: Deployment" ]}.

Definition onlyMetadata : gmap string string :=
  {[ "metadata" := "v1beta1" ]}.

Definition configMap (name : string) (labels : option (gmap string string))
    (data : gmap string string) : corev1.ConfigMap :=
  corev1.mkConfigMap "capa-system" name labels data.

Definition ref (name : string) : corev1.ObjectReference :=
  corev1.mkObjectReference "ConfigMap" "capa-system" name.

Definition holding (cm : corev1.ConfigMap) : @controllers.State fakeClusterctl :=
  start (reconciler (aws unpinned)
           (clusterWith {[ ("capa-system", corev1.cmName cm) := cm ]} ∅)
           healthy).

Definition noFiles : gmap string string := ∅.

Definition labels (version : string) : gmap string string :=
  {[ "provider.cluster.x-k8s.io/version" := version ]}.

Definition versionLabelled (version : string) : option (gmap string string) :=
  Some (labels version).

(** A repository whose metadata declares the given contract for the
    series of v2.0.0. *)
Definition declaring (contract : string) : repository.Repository :=
  repository.asRepository
    (repository.mkMemoryRepository "v2.0.0" "" "components.yaml"
       {[ ("v2.0.0", "metadata.yaml") := contract ]}).

Definition loaded (contract : string) : @controllers.State fakeClusterctl :=
  start (withRepository (declaring contract) "v2.0.0"
           (reconciler (aws unpinned) (clusterWith ∅ ∅) healthy)).

(** Specs for the webhook; the remainder of the struct is left out. *)
Definition matchAws : gmap string string := {[ "provider" := "aws" ]}.

Definition selector : webhook.LabelSelector :=
  webhook.mkLabelSelector (Some matchAws) [].

Definition fetchBySelector : webhook.FetchConfiguration :=
  webhook.mkFetchConfiguration "" (Some selector).

Definition selectorWithMatchLabels : webhook.ProviderSpec unit :=
  webhook.mkProviderSpec "v1.2.3" (Some fetchBySelector) tt.

Definition versioned (version : string) : webhook.ProviderSpec unit :=
  webhook.mkProviderSpec version None tt.

End scenario.

(** ** The rest of the two packages

    [newReconcilePhases] of phases.go and the defaulting entry point of
    the bootstrap-provider webhook. *)

Section Construction.

Context `{library : Clusterctl} `{api : !OperatorAPI}.

(** [GenericProviderReconciler]: the two fields that [newReconcilePhases]
    reads, [r.Client] and [r.Config]. *)
Record GenericProviderReconciler := mkGenericProviderReconciler {
  reconcilerClient : Client;
  reconcilerConfig : RestConfig
}.

(** [newReconcilePhases] returns the phase reconciler for the given
    provider: the fields it does not name have their zero value, and
    [clusterctlProvider] points to a zero [clusterctlv1.Provider]. *)
Definition newReconcilePhases (r : GenericProviderReconciler)
    (provider : GenericProvider) (providerList : list GenericProvider)
  : controllers.phaseReconciler :=
  controllers.mkPhaseReconciler provider providerList
    (reconcilerClient r) (reconcilerConfig r)
    None "" (repository.mkComponentsOptions "" "" false) None None None
    (clusterctlv1.mkProvider "" "" "" "" "" "").

(** The state in which the first phase of a pass starts. *)
Definition fresh (r : GenericProviderReconciler) (provider : GenericProvider)
    (providerList : list GenericProvider) : controllers.State :=
  controllers.mkState (newReconcilePhases r provider providerList) [].

(** The calls a phase added to those made before it. *)
Definition added (st st' : controllers.State) (new : list controllers.Call)
  : Prop :=
  controllers.calls st' = controllers.calls st ++ new.

End Construction.

Section Defaulting.

Context {Remainder Context_ : Type}.

(** [setDefaultProviderSpec(&spec, namespace)] is declared outside the
    sources at hand: the spec it leaves, from the spec it is given and the
    namespace. *)
Variable setDefaultProviderSpec :
  webhook.ProviderSpec Remainder -> string -> webhook.ProviderSpec Remainder.

(** [apierrors.NewBadRequest(reason)]. *)
Definition NewBadRequest (reason : string) : error :=
  StatusError (StatusReasonOther "BadRequest") reason.

(** [Default] implements [webhook.CustomDefaulter]: the object as the
    call leaves it, and the error returned.  For an object that is not a
    bootstrap provider, [%T] prints the type the object carries. *)
Definition Default (r : webhook.BootstrapProviderWebhook) (ctx : Context_)
    (obj : webhook.Object Remainder)
  : webhook.Object Remainder * option error :=
  match obj with
  | webhook.BootstrapProviderObject bootstrapProvider =>
      (webhook.BootstrapProviderObject
         (webhook.mkBootstrapProvider
            (webhook.Namespace _ bootstrapProvider)
            (webhook.Name _ bootstrapProvider)
            (setDefaultProviderSpec (webhook.Spec bootstrapProvider)
               (webhook.Namespace _ bootstrapProvider))),
       None)
  | webhook.OtherObject type =>
      (obj,
       Some (NewBadRequest
               ("expected a BootstrapProvider but got a " +:+ type)))
  end.

End Defaulting.

(** ** Further values of the scenario

    States of a pass on the provider [aws] and a defaulting of the spec,
    on which the theorems of the third part can be run. *)
Module cases.

Import scenario.

Definition pinned (version : string) : operatorv1.ProviderSpec :=
  operatorv1.mkProviderSpec (Some version) None None.

(** The start of a pass on a cluster without config maps and records. *)
Definition newPass : @controllers.State fakeClusterctl :=
  start (reconciler (aws unpinned) (clusterWith ∅ ∅) healthy).

(** A pass that has loaded the remote repository at v2.0.0. *)
Definition fetching : @controllers.State fakeClusterctl :=
  start (withRepository remoteRepository "v2.0.0"
           (reconciler (aws unpinned) (clusterWith ∅ ∅) healthy)).

(** A pass that has loaded a repository without a components file, and
    the provider configuration. *)
Definition withoutComponentsFile : @controllers.State fakeClusterctl :=
  start (@controllers.set_providerConfig fakeClusterctl (Some "aws")
           (withRepository (declaring "v1beta1") "v2.0.0"
              (reconciler (aws unpinned) (clusterWith ∅ ∅) healthy))).

(** The states that [load], [fetch] and [preInstall] leave on them. *)
Definition loadedPass : @controllers.State fakeClusterctl :=
  @controllers.mkState fakeClusterctl
    (@controllers.set_contract fakeClusterctl "v1beta1"
       (withRepository remoteRepository "v2.0.0"
          (@controllers.set_providerConfig fakeClusterctl (Some "aws")
             (@controllers.set_configClient fakeClusterctl (Some [])
                (reconciler (aws unpinned) (clusterWith ∅ ∅) healthy)))))
    [@controllers.CallGetFile fakeClusterctl "v2.0.0" "metadata.yaml"].

Definition fetched : @controllers.State fakeClusterctl :=
  @controllers.mkState fakeClusterctl
    (@controllers.set_provider fakeClusterctl
       (@conditions_Set fakeClusterctl (aws unpinned)
          (conditions.TrueCondition "PreflightCheckPassed"))
       (withComponents "v2.0.0" (controllers.self fetching)))
    [@controllers.CallGetFile fakeClusterctl "v2.0.0" "components.yaml"].


(** A defaulting of the spec: the remainder of the spec is taken to be
    the namespace of a reference, which defaults to the namespace of the
    provider. *)
Definition namespaceDefaulted (spec : webhook.ProviderSpec string)
    (namespace : string) : webhook.ProviderSpec string :=
  webhook.mkProviderSpec (webhook.Version spec) (webhook.FetchConfig spec)
    (if String.eqb (webhook.remainder spec) "" then namespace
     else webhook.remainder spec).

Definition kubeadm : webhook.Object string :=
  webhook.BootstrapProviderObject
    (webhook.mkBootstrapProvider "capi-kubeadm-bootstrap-system" "kubeadm"
       (webhook.mkProviderSpec "v1.4.2" None "")).

End cases.

(** ** Proof automation *)

(** Unfolds the monad of the phases. *)
Ltac run :=
  unfold controllers.bind, controllers.ret, controllers.get,
    controllers.modify, controllers.record, controllers.deref,
    controllers.panic;
  simpl.

(** Destructs the value a [match] of the goal or of a hypothesis
    inspects, and simplifies the equations this leaves. *)
Ltac case_scrutinee :=
  match goal with
  | |- context [match ?x with _ => _ end] => destruct x eqn:?
  | H : context [match ?x with _ => _ end] |- _ => destruct x eqn:?
  end;
  unfold controllers.ret, controllers.panic in *; simplify_eq/=.

(* ================================================================== *)
(** * Part II: properties *)
(* ================================================================== *)

(** ** The webhook *)

Section WebhookProperties.

Context {Remainder Context_ : Type}.

Implicit Types (spec : webhook.ProviderSpec Remainder).

(** C9: the three admission validators of [BootstrapProviderWebhook]
    return no warnings and no error on every object and context; in
    particular an object whose spec [validateProviderSpec] rejects (a
    selector together with match labels) is accepted on create, on update
    and on delete. *)
Theorem BootstrapProviderWebhook_validators_accept_all
    (r : webhook.BootstrapProviderWebhook) (ctx : Context_)
    (obj oldObj : webhook.Object Remainder) :
  webhook.ValidateCreate r ctx obj = (None, None)
  ∧ webhook.ValidateUpdate r ctx oldObj obj = (None, None)
  ∧ webhook.ValidateDelete r ctx obj = (None, None)
  ∧ ∀ ns name spec,
      webhook.selectorAndMatchLabels spec = true →
      webhook.validateProviderSpec spec ≠ []
      ∧ webhook.ValidateCreate r ctx
          (webhook.BootstrapProviderObject
             (webhook.mkBootstrapProvider ns name spec)) = (None, None)
      ∧ webhook.ValidateUpdate r ctx oldObj
          (webhook.BootstrapProviderObject
             (webhook.mkBootstrapProvider ns name spec)) = (None, None)
      ∧ webhook.ValidateDelete r ctx
          (webhook.BootstrapProviderObject
             (webhook.mkBootstrapProvider ns name spec)) = (None, None).
Proof.
  do 3 (split; [reflexivity |]).
  intros ns name spec Hboth. split; [| repeat split; reflexivity].
  unfold webhook.validateProviderSpec. rewrite Hboth.
  intros Hnil. apply app_eq_nil in Hnil as [_ Hnil]. discriminate.
Qed.

Lemma selectorAndMatchLabels_true spec fc sel labels :
  webhook.FetchConfig spec = Some fc →
  webhook.Selector fc = Some sel →
  webhook.MatchLabels sel = Some labels →
  webhook.selectorAndMatchLabels spec = true.
Proof.
  intros Hfc Hsel Hlabels. unfold webhook.selectorAndMatchLabels.
  now rewrite Hfc, Hsel, Hlabels.
Qed.

(** The list [validateProviderSpec] returns, by cases on its two tests. *)
Lemma validateProviderSpec_cases spec :
  webhook.validateProviderSpec spec =
    (if negb (String.eqb (webhook.Version spec) "") then
       match versionutil.ParseSemantic (webhook.Version spec) with
       | Err err => [invalidVersion spec err]
       | Ok _ => []
       end
     else [])
    ++ (if webhook.selectorAndMatchLabels spec then [selectorConflict spec]
        else []).
Proof.
  unfold webhook.validateProviderSpec.
  destruct (negb (String.eqb (webhook.Version spec) ""));
    [destruct (versionutil.ParseSemantic (webhook.Version spec))|];
    destruct (webhook.selectorAndMatchLabels spec);
    simpl; rewrite ?app_nil_r; reflexivity.
Qed.

(** C7: a spec whose fetch configuration sets a label selector with a
    match-labels map is rejected, whatever its other fields: the error
    list is not empty and holds the invalid-field error of the path
    [spec.fetchConfig]. *)
Theorem validateProviderSpec_rejects_selector_with_matchLabels
    spec fc sel labels :
  webhook.FetchConfig spec = Some fc →
  webhook.Selector fc = Some sel →
  webhook.MatchLabels sel = Some labels →
  webhook.validateProviderSpec spec ≠ []
  ∧ In (selectorConflict spec) (webhook.validateProviderSpec spec)
  ∧ field.Type_ (selectorConflict spec) = field.ErrorTypeInvalid
  ∧ field.Field (selectorConflict spec) = "spec.fetchConfig".
Proof.
  intros Hfc Hsel Hlabels.
  assert (Hin : In (selectorConflict spec) (webhook.validateProviderSpec spec)).
  { rewrite validateProviderSpec_cases,
      (selectorAndMatchLabels_true _ _ _ _ Hfc Hsel Hlabels).
    apply in_or_app. right. now left. }
  repeat split; try assumption.
  intros Hnil. rewrite Hnil in Hin. destruct Hin.
Qed.

(** The empty string is not a semantic version. *)
Lemma ParseSemantic_empty :
  versionutil.ParseSemantic "" =
    Err (Errorf "could not parse %q as version" [opString ""]).
Proof. reflexivity. Qed.

(** C10: [validateProviderSpec] reports an invalid version exactly when
    the version field is not empty and does not parse as a semantic
    version; with an empty version no error of the path [spec.version] is
    reported, although the empty string does not parse. *)
Theorem validateProviderSpec_version_error_iff spec :
  ((∃ e, In e (webhook.validateProviderSpec spec)
         ∧ field.Field e = "spec.version")
   ↔ (webhook.Version spec ≠ ""
      ∧ ∃ err, versionutil.ParseSemantic (webhook.Version spec) = Err err))
  ∧ (∀ err, webhook.Version spec ≠ "" →
       versionutil.ParseSemantic (webhook.Version spec) = Err err →
       In (invalidVersion spec err) (webhook.validateProviderSpec spec))
  ∧ (webhook.Version spec = "" →
       (∃ err, versionutil.ParseSemantic (webhook.Version spec) = Err err)
       ∧ ∀ e, In e (webhook.validateProviderSpec spec) →
              field.Field e = "spec.fetchConfig").
Proof.
  assert (Hconflict : ∀ e,
             In e (if webhook.selectorAndMatchLabels spec
                   then [selectorConflict spec] else []) →
             field.Field e = "spec.fetchConfig").
  { intros e Hin. destruct (webhook.selectorAndMatchLabels spec);
      [destruct Hin as [<- | []]; reflexivity | destruct Hin]. }
  rewrite validateProviderSpec_cases.
  destruct (String.eqb_spec (webhook.Version spec) "") as [Hempty | Hne]; simpl.
  - split; [split |split].
    + intros (e & Hin & Hfield). apply Hconflict in Hin.
      rewrite Hin in Hfield. discriminate.
    + intros [Hne _]. contradiction.
    + intros err Hne. contradiction.
    + intros _. split; [| exact Hconflict].
      rewrite Hempty. eexists. apply ParseSemantic_empty.
  - destruct (versionutil.ParseSemantic (webhook.Version spec)) as [v | err];
      simpl.
    + split; [split | split].
      * intros (e & Hin & Hfield). apply Hconflict in Hin.
        rewrite Hin in Hfield. discriminate.
      * intros (_ & err & Herr). discriminate.
      * intros err _ Herr. discriminate.
      * intros Hempty. contradiction.
    + split; [split | split].
      * intros _. split; [assumption | exists err; reflexivity].
      * intros _. exists (invalidVersion spec err).
        split; [now left | reflexivity].
      * intros err' _ Herr. injection Herr as <-. now left.
      * intros Hempty. contradiction.
Qed.

End WebhookProperties.

(** ** Formatted text *)

Section Formatting.

Import fmt.

Lemma Sprintf_char c format a :
  Ascii.eqb c "%" = false →
  Sprintf (String c format) a =
    match Sprintf format a with
    | Some r => Some (String c r)
    | None => None
    end.
Proof.
  destruct c as [[] [] [] [] [] [] [] []]; intros Hc;
    try discriminate Hc; reflexivity.
Qed.

Lemma Sprintf_literal t format a :
  literal t = true →
  Sprintf (t +:+ format) a =
    match Sprintf format a with
    | Some r => Some (t +:+ r)
    | None => None
    end.
Proof.
  induction t as [| c t IH]; intros Hlit.
  - change ("" +:+ format) with format. now destruct (Sprintf format a).
  - apply andb_prop in Hlit as [Hc Hlit]. apply negb_true_iff in Hc.
    change (String c t +:+ format) with (String c (t +:+ format)).
    rewrite (Sprintf_char c _ a Hc), (IH Hlit).
    now destruct (Sprintf format a).
Qed.

Lemma Sprintf_s s format a :
  Sprintf ("%s" +:+ format) (opString s :: a) =
    match Sprintf format a with
    | Some r => Some (s +:+ r)
    | None => None
    end.
Proof. reflexivity. Qed.

(** A format of three [%s] verbs between literal texts prints its three
    operands between those texts. *)
Lemma Sprintf_three t0 t1 t2 t3 x y z :
  literal t0 = true → literal t1 = true →
  literal t2 = true → literal t3 = true →
  Sprintf (t0 +:+ "%s" +:+ t1 +:+ "%s" +:+ t2 +:+ "%s" +:+ t3)
    [opString x; opString y; opString z]
  = Some (t0 +:+ x +:+ t1 +:+ y +:+ t2 +:+ z +:+ t3).
Proof.
  intros H0 H1 H2 H3.
  rewrite (Sprintf_literal t0 _ _ H0), Sprintf_s,
    (Sprintf_literal t1 _ _ H1), Sprintf_s,
    (Sprintf_literal t2 _ _ H2), Sprintf_s.
  assert (Hnil : t3 +:+ "" = t3).
  { clear. induction t3 as [| c t IH]; [reflexivity |].
    change (String c t +:+ "") with (String c (t +:+ "")). now rewrite IH. }
  rewrite <- Hnil at 1.
  rewrite (Sprintf_literal t3 _ _ H3). simpl. now rewrite Hnil.
Qed.

End Formatting.

(** ** The version order *)

Section VersionOrder.

Import versionutil.

Lemma compareComponents_refl vs : compareComponents vs vs = None.
Proof.
  induction vs as [| v vs IH]; simpl; [reflexivity |].
  now rewrite N.ltb_irrefl.
Qed.

Lemma compareComponents_antisym vs os :
  compareComponents os vs = option_map Z.opp (compareComponents vs os).
Proof.
  revert os. induction vs as [| v vs IH]; intros [| o os]; simpl; try reflexivity.
  destruct (N.ltb_spec o v), (N.ltb_spec v o); simpl; try reflexivity; try lia.
  apply IH.
Qed.

Lemma comparePreRelease_antisym vPR oPR :
  comparePreRelease oPR vPR = option_map Z.opp (comparePreRelease vPR oPR).
Proof.
  revert oPR. induction vPR as [| v vPR IH]; intros [| o oPR]; simpl;
    try reflexivity.
  assert (Hstr :
    match String.compare v o with
    | Lt => Some 1%Z
    | Gt => Some (-1)%Z
    | Eq => comparePreRelease oPR vPR
    end =
    option_map Z.opp
      match String.compare o v with
      | Lt => Some 1%Z
      | Gt => Some (-1)%Z
      | Eq => comparePreRelease vPR oPR
      end).
  { rewrite (String.compare_antisym o v).
    destruct (String.compare v o); simpl; auto. }
  destruct (ParseUint v) as [vNum |], (ParseUint o) as [oNum |]; try exact Hstr.
  destruct (N.ltb_spec oNum vNum), (N.ltb_spec vNum oNum); simpl;
    try reflexivity; try lia.
  apply IH.
Qed.

(** The end of [compareInternal], after the numeric components: the
    [semver] flags, the empty pre-releases, equal pre-releases, the
    identifiers, and their number. *)
Ltac compare_preReleases v other :=
  rewrite (orb_comm (negb (semver other)));
  destruct (negb (semver v) || negb (semver other)); [reflexivity |];
  rewrite (String.eqb_sym (preRelease other) (preRelease v));
  rewrite (comparePreRelease_antisym (Split (preRelease v)));
  destruct (String.eqb (preRelease v) ""), (String.eqb (preRelease other) "");
    simpl; try reflexivity;
    (destruct (String.eqb (preRelease v) (preRelease other));
     [reflexivity |]);
    (destruct (comparePreRelease (Split (preRelease v))
                 (Split (preRelease other))); simpl; [reflexivity |]);
    destruct (Nat.ltb_spec (length (Split (preRelease v)))
                (length (Split (preRelease other)))),
             (Nat.ltb_spec (length (Split (preRelease other)))
                (length (Split (preRelease v)))); simpl;
    try reflexivity; lia.

(** [compareInternal] is antisymmetric: swapping the versions negates
    the result. *)
Lemma compareInternal_antisym v other :
  compareInternal other v = (- compareInternal v other)%Z.
Proof.
  unfold compareInternal.
  rewrite (compareComponents_antisym (components v) (components other)).
  destruct (compareComponents (components v) (components other)) as [r |];
    simpl; [reflexivity |].
  set (vLen := length (components v)). set (oLen := length (components other)).
  destruct (Nat.ltb_spec vLen oLen) as [Hlt | Hge]; simpl.
  - destruct (Nat.ltb_spec oLen vLen) as [Hlt' | _]; [lia |]. simpl.
    destruct (onlyZeros (drop vLen (components other))); simpl; [| reflexivity].
    compare_preReleases v other.
  - destruct (Nat.ltb_spec oLen vLen) as [Hlt' | _]; simpl.
    + destruct (onlyZeros (drop oLen (components v))); simpl; [| reflexivity].
      compare_preReleases v other.
    + compare_preReleases v other.
Qed.

Lemma compareInternal_refl v : compareInternal v v = 0%Z.
Proof.
  unfold compareInternal.
  rewrite compareComponents_refl, Nat.ltb_irrefl. simpl.
  destruct (negb (semver v) || negb (semver v)); [reflexivity |].
  rewrite String.eqb_refl.
  destruct (String.eqb (preRelease v) ""); reflexivity.
Qed.

Lemma LessThan_irrefl v : LessThan v v = false.
Proof. unfold LessThan. now rewrite compareInternal_refl. Qed.

Lemma LessThan_asym v other :
  LessThan other v = true → LessThan v other = false.
Proof.
  unfold LessThan. rewrite (compareInternal_antisym v other).
  intros Hlt%Z.eqb_eq. apply Z.eqb_neq. lia.
Qed.

End VersionOrder.

(** ** The phases *)

Section PhaseProperties.

Context `{library : Clusterctl} `{api : !OperatorAPI}.

Import controllers.

Implicit Types (st : State) (p : phaseReconciler) (provider : GenericProvider).

(** C8: when the installer fails, [install] returns a [PhaseError] on
    the provider-installed condition that carries the installer's error;
    its reason is the timeout reason exactly when that error is
    [wait.ErrWaitTimeout], and the generic reason otherwise. *)
Theorem install_classifies_installer_error st err :
  Install (newClusterClient (self st)) (components (self st))
    (cluster.mkInstallOptions false 0) = Some err →
  ∃ reason,
    install st =
      Returns
        (reconcile.empty,
         Some (PhaseError reason ProviderInstalledCondition
                 ConditionSeverityWarning err))
        (after st (self st)
           (CallInstall (components (self st)) (cluster.mkInstallOptions false 0)))
    ∧ (reason = "Timedout waiting for deployment to become ready"
       ↔ err = ErrWaitTimeout)
    ∧ (reason = "Install failed" ↔ err ≠ ErrWaitTimeout).
Proof.
  intros Hinstall. unfold install. run. rewrite Hinstall. simpl.
  destruct st as [p cs]; simpl in *.
  destruct err; simpl; eexists; (split; [reflexivity |]);
    split; split; try discriminate; try reflexivity; try congruence.
Qed.

(** C4: [delete] always returns, after exactly one call, the installer's
    [Delete], on the identity of the provider (name prefixed by its kind,
    namespace, type and provider name), with namespace and CRDs excluded;
    the version of that identity is the recorded one, or the target
    version of the pass when no version is recorded; the record store is
    not consulted, and the phase fails only if the installer's call
    does. *)
Theorem delete_calls_installer_excluding_namespace_and_CRDs st :
  ∃ o,
    delete st =
      Returns
        (reconcile.empty,
         wrapPhaseError (Delete (newClusterClient (self st)) o)
           OldComponentsDeletionErrorReason ProviderInstalledCondition)
        (after st (set_clusterctlProvider (cluster.Provider o) (self st))
           (CallDelete o))
    ∧ cluster.IncludeNamespace o = false
    ∧ cluster.IncludeCRDs o = false
    ∧ cluster.Provider o = deleteTarget (self st)
    ∧ (clusterctlv1.Version (clusterctlProvider (self st)) = "" →
       clusterctlv1.Version (cluster.Provider o)
       = repository.Version (options (self st)))
    ∧ (clusterctlv1.Version (clusterctlProvider (self st)) ≠ "" →
       clusterctlv1.Version (cluster.Provider o)
       = clusterctlv1.Version (clusterctlProvider (self st)))
    ∧ (Delete (newClusterClient (self st)) o = None →
       delete st =
         Returns (reconcile.empty, None)
           (after st (set_clusterctlProvider (cluster.Provider o) (self st))
              (CallDelete o))).
Proof.
  exists (cluster.mkDeleteOptions (deleteTarget (self st)) false false).
  assert (Hrun : delete st =
    Returns
      (reconcile.empty,
       wrapPhaseError
         (Delete (newClusterClient (self st))
            (cluster.mkDeleteOptions (deleteTarget (self st)) false false))
         OldComponentsDeletionErrorReason ProviderInstalledCondition)
      (after st (set_clusterctlProvider (deleteTarget (self st)) (self st))
         (CallDelete (cluster.mkDeleteOptions (deleteTarget (self st)) false false))))
    by reflexivity.
  simpl. repeat (split; [first [exact Hrun | reflexivity] |]).
  split; [| split].
  - intros Hv. unfold deleteTarget. simpl. now rewrite Hv.
  - intros Hv. unfold deleteTarget. simpl.
    destruct (String.eqb_spec (clusterctlv1.Version (clusterctlProvider (self st))) "");
      [contradiction | reflexivity].
  - intros Hdel. rewrite Hrun, Hdel. reflexivity.
Qed.

(** C1: [updateRequiresPreDeletion] answers [false] when the record store
    reports NotFound, and [false] when the record found has an empty
    version; when the record has a version and both it and the version of
    the components parse, it answers whether the recorded version is
    strictly less than the new one: [false] for a recorded version of
    equal precedence and for a greater one, [false] for the same version
    string on both sides. *)
Theorem updateRequiresPreDeletion_iff_recorded_less provider st :
  let key := clusterctlProviderName provider in
  let looked := after st (self st) (CallGetProvider key) in
  (∀ err,
      GetProvider (ctrlClient (self st)) key = Err err →
      apierrors.IsNotFound err = true →
      updateRequiresPreDeletion provider st = Returns (false, None) looked)
  ∧ (∀ found,
      GetProvider (ctrlClient (self st)) key = Ok found →
      clusterctlv1.Version found = "" →
      updateRequiresPreDeletion provider st =
        Returns (false, None)
          (after st (set_clusterctlProvider found (self st))
             (CallGetProvider key)))
  ∧ (∀ found c currentVersion nextVersion,
      GetProvider (ctrlClient (self st)) key = Ok found →
      clusterctlv1.Version found ≠ "" →
      components (self st) = Some c →
      versionutil.ParseSemantic (Components_Version c) = Ok nextVersion →
      versionutil.ParseSemantic (clusterctlv1.Version found) = Ok currentVersion →
      ∃ need,
        updateRequiresPreDeletion provider st =
          Returns (need, None)
            (after st (set_clusterctlProvider found (self st))
               (CallGetProvider key))
        ∧ (need = true
           ↔ versionutil.compareInternal currentVersion nextVersion = (-1)%Z)
        ∧ (versionutil.compareInternal currentVersion nextVersion = 0%Z →
           need = false)
        ∧ (versionutil.LessThan nextVersion currentVersion = true →
           need = false)
        ∧ (Components_Version c = clusterctlv1.Version found → need = false)).
Proof.
  simpl. split; [| split].
  - intros err Hget Hnf. unfold updateRequiresPreDeletion. run.
    now rewrite Hget, Hnf.
  - intros found Hget Hv. unfold updateRequiresPreDeletion. run.
    now rewrite Hget, Hv.
  - intros found c currentVersion nextVersion Hget Hv Hc Hnext Hcur.
    exists (versionutil.LessThan currentVersion nextVersion). split.
    { unfold updateRequiresPreDeletion. run. rewrite Hget. simpl.
      destruct (String.eqb_spec (clusterctlv1.Version found) "");
        [contradiction |].
      rewrite Hc. simpl. now rewrite Hnext, Hcur. }
    split; [| split; [| split]].
    + unfold versionutil.LessThan. apply Z.eqb_eq.
    + intros Heq. unfold versionutil.LessThan. now rewrite Heq.
    + apply LessThan_asym.
    + intros Hsame. rewrite Hsame, Hcur in Hnext. injection Hnext as <-.
      apply LessThan_irrefl.
Qed.

(** *** configmapRepository *)

Lemma configmapRepository_found st ref cm :
  GetConfigMap (ctrlClient (self st)) (configMapKey ref) = Ok cm →
  configmapRepository (Some ref) st =
    Returns
      match versionLabel cm with
      | Some ver =>
          built cm ver ("from the Label " +:+ ConfigMapVersionLabelName)
      | None => built cm (corev1.cmName cm) "from the Name"
      end
      (after st (self st) (CallGetConfigMap (configMapKey ref))).
Proof.
  intros Hget. unfold configmapRepository, versionLabel, built. run.
  fold (configMapKey ref). rewrite Hget.
  destruct (corev1.Labels cm) as [labels |];
    [destruct (labels !! ConfigMapVersionLabelName) as [ver |] |];
    match goal with
    | |- context [versionutil.ParseSemantic ?v] =>
        destruct (versionutil.ParseSemantic v)
    end; try reflexivity;
    destruct (corev1.Data cm !! "metadata"); try reflexivity;
    destruct (corev1.Data cm !! "components"); reflexivity.
Qed.

Lemma builtRepository_files version metadata components :
  repository.DefaultVersion (builtRepository version metadata components)
  = version
  ∧ repository.ComponentsPath (builtRepository version metadata components)
    = "components.yaml"
  ∧ repository.GetFile (builtRepository version metadata components)
      version metadataFile = Ok metadata
  ∧ repository.GetFile (builtRepository version metadata components)
      version "components.yaml" = Ok components.
Proof.
  repeat split; unfold builtRepository; simpl;
    unfold repository.MemoryRepository_GetFile; simpl.
  - rewrite lookup_insert_ne by (intros [=]). now rewrite lookup_insert_eq.
  - now rewrite lookup_insert_eq.
Qed.

(** C5, as the code has it: for a config map that is found and whose
    version (label, else name) parses as a semantic version, the
    construction fails naming [metadata] when that key is absent, whether
    or not [components] is present, and fails naming [components] when
    [metadata] is present and [components] is absent. *)
Theorem configmapRepository_missing_key st ref cm v :
  GetConfigMap (ctrlClient (self st)) (configMapKey ref) = Ok cm →
  versionutil.ParseSemantic (default (corev1.cmName cm) (versionLabel cm))
  = Ok v →
  let ns := corev1.cmNamespace cm in
  let name := corev1.cmName cm in
  let looked := after st (self st) (CallGetConfigMap (configMapKey ref)) in
  (corev1.Data cm !! "metadata" = None →
   configmapRepository (Some ref) st =
     Returns (Err (Errorf "ConfigMap %s/%s has no metadata"
                     [opString ns; opString name])) looked
   ∧ fmt.Sprintf "ConfigMap %s/%s has no metadata" [opString ns; opString name]
     = Some ("ConfigMap " +:+ ns +:+ "/" +:+ name +:+ " has no metadata"))
  ∧ (∀ metadata,
       corev1.Data cm !! "metadata" = Some metadata →
       corev1.Data cm !! "components" = None →
       configmapRepository (Some ref) st =
         Returns (Err (Errorf "ConfigMap %s/%s has no components"
                         [opString ns; opString name])) looked
       ∧ fmt.Sprintf "ConfigMap %s/%s has no components"
           [opString ns; opString name]
         = Some ("ConfigMap " +:+ ns +:+ "/" +:+ name +:+ " has no components")).
Proof.
  intros Hget Hparse. simpl.
  rewrite (configmapRepository_found _ _ _ Hget).
  split.
  - intros Hmeta. split; [| reflexivity].
    destruct (versionLabel cm); simpl in Hparse; unfold built;
      now rewrite Hparse, Hmeta.
  - intros metadata Hmeta Hcomp. split; [| reflexivity].
    destruct (versionLabel cm); simpl in Hparse; unfold built;
      now rewrite Hparse, Hmeta, Hcomp.
Qed.

Lemma built_derives st ref cm version source :
  configmapRepository (Some ref) st =
    Returns (built cm version source)
      (after st (self st) (CallGetConfigMap (configMapKey ref))) →
  derives st ref cm version source.
Proof.
  intros Hrun. unfold derives. simpl. rewrite Hrun. split.
  - intros err Herr. split; [| reflexivity].
    unfold built. now rewrite Herr.
  - intros v metadata components Hv Hmeta Hcomp.
    exists (builtRepository version metadata components).
    unfold built. rewrite Hv, Hmeta, Hcomp.
    destruct (builtRepository_files version metadata components)
      as (Hdefault & Hpath & Hm & Hc).
    rewrite Hpath. auto.
Qed.

(** C6: the version of the repository built from a config map is the
    value of its version label when it has one, the name of the config
    map otherwise; an invalid version is reported as coming from the
    label, respectively from the name; the repository built returns that
    version as its default version. *)
Theorem configmapRepository_version_from_label_or_name st ref cm :
  GetConfigMap (ctrlClient (self st)) (configMapKey ref) = Ok cm →
  (corev1.Labels cm = None →
   derives st ref cm (corev1.cmName cm) "from the Name")
  ∧ (∀ labels,
       corev1.Labels cm = Some labels →
       labels !! ConfigMapVersionLabelName = None →
       derives st ref cm (corev1.cmName cm) "from the Name")
  ∧ (∀ labels ver,
       corev1.Labels cm = Some labels →
       labels !! ConfigMapVersionLabelName = Some ver →
       derives st ref cm ver
         ("from the Label " +:+ ConfigMapVersionLabelName)).
Proof.
  intros Hget. pose proof (configmapRepository_found _ _ _ Hget) as Hrun.
  unfold versionLabel in Hrun. split; [| split].
  - intros Hlabels. rewrite Hlabels in Hrun. now apply built_derives.
  - intros labels Hlabels Hnone. rewrite Hlabels, Hnone in Hrun.
    now apply built_derives.
  - intros labels ver Hlabels Hsome. rewrite Hlabels, Hsome in Hrun.
    now apply built_derives.
Qed.

(** *** validateRepoCAPIVersion *)

(** With a repository loaded, [validateRepoCAPIVersion] returns after one
    read, of the metadata file at the version of the options, and changes
    at most the contract. *)
Lemma validateRepoCAPIVersion_returns provider st r :
  repo (self st) = Some r →
  ∃ err p',
    validateRepoCAPIVersion provider st =
      Returns err
        (after st p'
           (CallGetFile (repository.Version (options (self st))) metadataFile))
    ∧ (p' = self st ∨ ∃ c, p' = set_contract c (self st)).
Proof.
  intros Hrepo. unfold validateRepoCAPIVersion. run. rewrite Hrepo. simpl.
  repeat case_scrutinee;
    do 2 eexists; (split; [reflexivity |]); eauto.
Qed.

Lemma updateRequiresPreDeletion_frame provider st res st' :
  updateRequiresPreDeletion provider st = Returns res st' →
  options (self st') = options (self st)
  ∧ contract (self st') = contract (self st)
  ∧ configClient (self st') = configClient (self st)
  ∧ ctrlClient (self st') = ctrlClient (self st)
  ∧ ctrlConfig (self st') = ctrlConfig (self st)
  ∧ controllers.provider (self st') = controllers.provider (self st).
Proof.
  unfold updateRequiresPreDeletion. run. intros Hrun.
  repeat case_scrutinee; repeat split; reflexivity.
Qed.

Lemma delete_frame st res st' :
  delete st = Returns res st' →
  options (self st') = options (self st)
  ∧ contract (self st') = contract (self st).
Proof. unfold delete. run. intros [= <- <-]. simpl. auto. Qed.

Lemma laterPhases_keep_contract phase st res st' :
  In phase laterPhases →
  phase st = Returns res st' →
  contract (self st') = contract (self st)
  ∧ options (self st') = options (self st).
Proof.
  intros [<- | [<- | [<- | [<- | []]]]].
  - unfold fetch. run. intros Hrun.
    repeat case_scrutinee; auto.
  - unfold preInstall. run. intros Hrun.
    destruct (EnsureCustomResourceDefinitions (newClusterClient (self st)));
      [injection Hrun as <- <-; simpl; auto |].
    destruct (updateRequiresPreDeletion (provider (self st)) _)
      as [[need err] st1 |] eqn:Hupd; [| discriminate].
    apply updateRequiresPreDeletion_frame in Hupd as (Ho & Hc & _).
    simpl in Ho, Hc.
    destruct (notNil err || negb need).
    + injection Hrun as <- <-. auto.
    + apply delete_frame in Hrun as [Ho' Hc']. split; congruence.
  - unfold install. run. intros Hrun.
    repeat case_scrutinee; auto.
  - intros Hrun. apply delete_frame in Hrun. tauto.
Qed.

(** C3: with the metadata of the target version read and decoded and a
    release series matched, [validateRepoCAPIVersion] fails when the
    contract of the series is neither [v1alpha4] nor [v1beta1], with the
    incompatibility message formatted from the contract version of the
    host, the contract of the series and the name of the provider (all
    three appear in the text whenever the message has a [%s] for each);
    with a contract of the list it succeeds and stores the contract in
    the reconciler, where the later phases of the pass leave it. *)
Theorem validateRepoCAPIVersion_checks_contract
    provider st r file metadata version series :
  repo (self st) = Some r →
  repository.GetFile r (repository.Version (options (self st))) metadataFile
  = Ok file →
  DecodeInto file = Ok metadata →
  versionutil.ParseSemantic (repository.Version (options (self st)))
  = Ok version →
  GetReleaseSeriesForVersion metadata version = Some series →
  let contract := clusterctlv1.Contract series in
  let read :=
    CallGetFile (repository.Version (options (self st))) metadataFile in
  let operands :=
    [opString GroupVersion_Version; opString contract;
     opString (GetName provider)] in
  (¬ allowed contract →
   validateRepoCAPIVersion provider st =
     Returns (Some (Errorf capiVersionIncompatibilityMessage operands))
       (after st (self st) read)
   ∧ ∀ t0 t1 t2 t3,
       literal t0 = true → literal t1 = true →
       literal t2 = true → literal t3 = true →
       capiVersionIncompatibilityMessage
       = t0 +:+ "%s" +:+ t1 +:+ "%s" +:+ t2 +:+ "%s" +:+ t3 →
       fmt.Sprintf capiVersionIncompatibilityMessage operands
       = Some (t0 +:+ GroupVersion_Version +:+ t1 +:+ contract +:+ t2
               +:+ GetName provider +:+ t3))
  ∧ (allowed contract →
     validateRepoCAPIVersion provider st =
       Returns None (after st (set_contract contract (self st)) read)
     ∧ controllers.contract (set_contract contract (self st)) = contract
     ∧ ∀ phase st1 res st2,
         In phase laterPhases →
         phase st1 = Returns res st2 →
         controllers.contract (self st2) = controllers.contract (self st1)).
Proof.
  intros Hrepo Hfile Hdecode Hparse Hseries. simpl.
  assert (Hrun : validateRepoCAPIVersion provider st =
    if negb (String.eqb (clusterctlv1.Contract series) "v1alpha4")
       && negb (String.eqb (clusterctlv1.Contract series) "v1beta1")
    then
      Returns (Some (Errorf capiVersionIncompatibilityMessage
                       [opString GroupVersion_Version;
                        opString (clusterctlv1.Contract series);
                        opString (GetName provider)]))
        (after st (self st)
           (CallGetFile (repository.Version (options (self st))) metadataFile))
    else
      Returns None
        (after st (set_contract (clusterctlv1.Contract series) (self st))
           (CallGetFile (repository.Version (options (self st))) metadataFile))).
  { unfold validateRepoCAPIVersion. run.
    rewrite Hrepo. simpl. rewrite Hfile, Hdecode, Hparse, Hseries.
    now destruct (negb _ && negb _). }
  rewrite Hrun. unfold allowed.
  destruct (String.eqb_spec (clusterctlv1.Contract series) "v1alpha4") as [Ha | Ha],
           (String.eqb_spec (clusterctlv1.Contract series) "v1beta1") as [Hb | Hb];
    simpl; (split; [intros Hnot | intros Hin]); try tauto.
  1-3: split; [reflexivity | split; [reflexivity |]];
    intros phase st1 res st2 Hphase Hrun';
    now apply (laterPhases_keep_contract phase st1 res st2).
  split; [reflexivity |].
  intros t0 t1 t2 t3 Ht0 Ht1 Ht2 Ht3 ->. now apply Sprintf_three.
Qed.

(** *** load and the target version *)

Lemma reads_app cs cs' : reads (cs ++ cs') = reads cs ++ reads cs'.
Proof.
  induction cs as [| c cs IH]; simpl; [reflexivity |].
  destruct c; simpl; now rewrite ?IH.
Qed.

Lemma configmapRepository_frame ref st res st' :
  configmapRepository ref st = Returns res st' →
  self st' = self st ∧ reads (calls st') = reads (calls st).
Proof.
  unfold configmapRepository. run. intros Hrun.
  repeat case_scrutinee; rewrite ?reads_app, ?app_nil_r; auto.
Qed.

Lemma selectRepository_frame provider pc cc st res st' :
  selectRepository provider pc cc st = Returns res st' →
  self st' = self st ∧ reads (calls st') = reads (calls st).
Proof.
  unfold selectRepository.
  destruct (match operatorv1.FetchConfig (GetSpec provider) with
            | Some fc => operatorv1.ConfigMap fc
            | None => None
            end).
  - apply configmapRepository_frame.
  - unfold ret. intros [= <- <-]. auto.
Qed.

Lemma load_reaches_validation st reader st1 cc pc r st2 :
  secretReader (provider (self st)) st = Returns (Ok reader) st1 →
  configclient_New "" reader = Ok cc →
  Providers_Get cc (GetName (provider (self st)))
    (ClusterctlProviderType (provider (self st))) = Ok pc →
  selectRepository (provider (self st)) pc cc (configured st1 cc pc)
  = Returns (Ok r) st2 →
  load st =
    bind (validateRepoCAPIVersion (provider (self st)))
      (fun err =>
         match err with
         | Some err =>
             ret (reconcile.empty,
                  wrapPhaseError (Some err) CAPIVersionIncompatibilityReason
                    PreflightCheckCondition)
         | None => ret (reconcile.empty, None)
         end)
      (mkState
         (set_options
            (repository.mkComponentsOptions
               (targetVersion (provider (self st)) r)
               (GetNamespace (provider (self st))) false)
            (set_repo (Some r) (self st2)))
         (calls st2)).
Proof.
  intros Hreader Hcc Hpc Hselect.
  unfold load. unfold bind at 1. unfold get at 1. unfold bind at 1.
  rewrite Hreader. unfold bind at 1. unfold modify at 1. rewrite Hcc.
  unfold bind at 1. unfold modify at 1. rewrite Hpc.
  unfold bind at 1. unfold selectRepository, configured in Hselect.
  simpl in *. rewrite Hselect.
  unfold targetVersion.
  destruct (operatorv1.Version (GetSpec (provider (self st)))); reflexivity.
Qed.

(** With its repository and provider configuration loaded, [fetch]
    returns after one read, of the components file at the version of the
    options, which it leaves as they are. *)
Lemma fetch_reads_at_options st r pc :
  repo (self st) = Some r →
  providerConfig (self st) = Some pc →
  ∃ res st',
    fetch st = Returns res st'
    ∧ reads (calls st') =
        reads (calls st)
        ++ [(repository.Version (options (self st)), repository.ComponentsPath r)]
    ∧ options (self st') = options (self st).
Proof.
  intros Hrepo Hpc. unfold fetch. run. rewrite Hrepo. simpl.
  repeat case_scrutinee; do 2 eexists;
    (split; [reflexivity |]); simpl; rewrite reads_app; auto.
Qed.

Lemma updateRequiresPreDeletion_reads provider st res st' :
  updateRequiresPreDeletion provider st = Returns res st' →
  reads (calls st') = reads (calls st).
Proof.
  unfold updateRequiresPreDeletion. run. intros Hrun.
  repeat case_scrutinee; rewrite reads_app; apply app_nil_r.
Qed.

Lemma delete_reads st res st' :
  delete st = Returns res st' → reads (calls st') = reads (calls st).
Proof.
  unfold delete. run. intros [= <- <-]. simpl.
  rewrite reads_app. apply app_nil_r.
Qed.

(** [preInstall], [install] and [delete] read nothing from the
    repository. *)
Lemma installPhases_read_nothing phase st res st' :
  In phase [preInstall; install; delete] →
  phase st = Returns res st' →
  reads (calls st') = reads (calls st).
Proof.
  intros [<- | [<- | [<- | []]]].
  - unfold preInstall. run. intros Hrun.
    destruct (EnsureCustomResourceDefinitions (newClusterClient (self st)));
      [injection Hrun as <- <-; simpl; rewrite reads_app; apply app_nil_r |].
    destruct (updateRequiresPreDeletion (provider (self st)) _)
      as [[need err] st1 |] eqn:Hupd; [| discriminate].
    apply updateRequiresPreDeletion_reads in Hupd. simpl in Hupd.
    rewrite reads_app, app_nil_r in Hupd.
    destruct (notNil err || negb need).
    + injection Hrun as <- <-. assumption.
    + apply delete_reads in Hrun. congruence.
  - unfold install. run. intros Hrun.
    repeat case_scrutinee; rewrite reads_app; apply app_nil_r.
  - apply delete_reads.
Qed.

(** C2: when [load] reaches the computation of the version (the secret
    reader, the configuration client, the provider configuration and the
    repository were obtained), it returns with the version of the options
    set to the version pinned in the spec of the provider if there is
    one, and to the default version of the repository otherwise; its own
    read of the repository, the read of [fetch] that follows, are at that
    version, and the later phases neither change it nor read the
    repository. *)
Theorem load_sets_target_version st reader st1 cc pc r st2 :
  secretReader (provider (self st)) st = Returns (Ok reader) st1 →
  configclient_New "" reader = Ok cc →
  Providers_Get cc (GetName (provider (self st)))
    (ClusterctlProviderType (provider (self st))) = Ok pc →
  selectRepository (provider (self st)) pc cc (configured st1 cc pc)
  = Returns (Ok r) st2 →
  let target :=
    match operatorv1.Version (GetSpec (provider (self st))) with
    | Some v => v
    | None => repository.DefaultVersion r
    end in
  ∃ err st',
    load st =
      Returns
        (reconcile.empty,
         wrapPhaseError err CAPIVersionIncompatibilityReason
           PreflightCheckCondition) st'
    ∧ repository.Version (options (self st')) = target
    ∧ reads (calls st') = reads (calls st2) ++ [(target, metadataFile)]
    ∧ (∃ res st'',
         fetch st' = Returns res st''
         ∧ reads (calls st'') =
             reads (calls st') ++ [(target, repository.ComponentsPath r)]
         ∧ repository.Version (options (self st'')) = target)
    ∧ (∀ phase st3 res st4,
         In phase [preInstall; install; delete] →
         phase st3 = Returns res st4 →
         repository.Version (options (self st4))
         = repository.Version (options (self st3))
         ∧ reads (calls st4) = reads (calls st3)).
Proof.
  intros Hreader Hcc Hpc Hselect. simpl.
  fold (targetVersion (provider (self st)) r).
  rewrite (load_reaches_validation _ _ _ _ _ _ _ Hreader Hcc Hpc Hselect).
  destruct (selectRepository_frame _ _ _ _ _ _ Hselect) as [Hself _].
  set (loaded := mkState _ (calls st2)).
  destruct (validateRepoCAPIVersion_returns (provider (self st)) loaded r
              eq_refl) as (err & p' & Hvalidate & Hp').
  assert (Hkept : options p' = options (self loaded)
                  ∧ repo p' = Some r ∧ providerConfig p' = Some pc).
  { destruct Hp' as [-> | [c ->]]; simpl; rewrite Hself; auto. }
  destruct Hkept as (Hoptions & Hrepo & Hconfig).
  exists err. eexists. split; [| split; [| split; [| split]]].
  - unfold bind. rewrite Hvalidate. destruct err; reflexivity.
  - simpl. now rewrite Hoptions.
  - simpl. now rewrite reads_app.
  - destruct (fetch_reads_at_options (after loaded p' (CallGetFile
                (repository.Version (options (self loaded))) metadataFile))
                r pc Hrepo Hconfig) as (res & st'' & Hfetch & Hreads & Hopt).
    exists res, st''. split; [exact Hfetch |]. simpl in Hreads, Hopt.
    rewrite Hoptions in Hreads. simpl in Hreads.
    rewrite Hopt, Hoptions. split; [exact Hreads | reflexivity].
  - intros phase st3 res st4 Hphase Hrun. split.
    + assert (Hlater : In phase laterPhases) by (simpl in *; tauto).
      destruct (laterPhases_keep_contract _ _ _ _ Hlater Hrun) as [_ Hopt].
      now rewrite Hopt.
    + now apply (installPhases_read_nothing phase st3 res st4).
Qed.

End PhaseProperties.

(** ** The theorems on the scenario *)

Section OnTheScenario.

Import scenario controllers.

Local Existing Instance fakeClusterctl.
Local Existing Instance fakeAPI.

(** The examples of the specification for [updateRequiresPreDeletion]:
    recorded v0.9.0 and new v1.0.0 need the pre-deletion; recorded v1.0.0
    and v1.1.0 with new v1.0.0 do not; nor do a cluster without a record
    and a record without a version. *)
Lemma updateRequiresPreDeletion_examples :
  (∃ st', updateRequiresPreDeletion (aws unpinned) (upgrade "v0.9.0" "v1.0.0")
          = Returns (true, None) st')
  ∧ (∃ st', updateRequiresPreDeletion (aws unpinned) (upgrade "v1.0.0" "v1.0.0")
            = Returns (false, None) st')
  ∧ (∃ st', updateRequiresPreDeletion (aws unpinned) (upgrade "v1.1.0" "v1.0.0")
            = Returns (false, None) st')
  ∧ (∃ st', updateRequiresPreDeletion (aws unpinned)
              (start (reconciler (aws unpinned) (clusterWith ∅ ∅) healthy))
            = Returns (false, None) st')
  ∧ (∃ st', updateRequiresPreDeletion (aws unpinned) (upgrade "" "v1.0.0")
            = Returns (false, None) st').
Proof.
  pose (v090 := versionutil.mkVersion [0; 9; 0]%N true "" "").
  pose (v100 := versionutil.mkVersion [1; 0; 0]%N true "" "").
  pose (v110 := versionutil.mkVersion [1; 1; 0]%N true "" "").
  assert (Hne : ∀ a s, String a s ≠ "") by (intros a s; discriminate).
  split; [| split; [| split; [| split]]].
  - destruct (proj2 (proj2 (updateRequiresPreDeletion_iff_recorded_less
                (aws unpinned) (upgrade "v0.9.0" "v1.0.0")))
                (record_ "v0.9.0") "v1.0.0" v090 v100
                eq_refl (Hne _ _) eq_refl eq_refl eq_refl)
      as (need & Hrun & Hiff & _).
    rewrite (proj2 Hiff eq_refl) in Hrun. eexists. exact Hrun.
  - destruct (proj2 (proj2 (updateRequiresPreDeletion_iff_recorded_less
                (aws unpinned) (upgrade "v1.0.0" "v1.0.0")))
                (record_ "v1.0.0") "v1.0.0" v100 v100
                eq_refl (Hne _ _) eq_refl eq_refl eq_refl)
      as (need & Hrun & _ & Hequal & _).
    rewrite (Hequal eq_refl) in Hrun. eexists. exact Hrun.
  - destruct (proj2 (proj2 (updateRequiresPreDeletion_iff_recorded_less
                (aws unpinned) (upgrade "v1.1.0" "v1.0.0")))
                (record_ "v1.1.0") "v1.0.0" v110 v100
                eq_refl (Hne _ _) eq_refl eq_refl eq_refl)
      as (need & Hrun & _ & _ & Hgreater & _).
    rewrite (Hgreater eq_refl) in Hrun. eexists. exact Hrun.
  - eexists.
    exact (proj1 (updateRequiresPreDeletion_iff_recorded_less (aws unpinned)
                    (start (reconciler (aws unpinned) (clusterWith ∅ ∅) healthy)))
             notFound eq_refl eq_refl).
  - eexists.
    exact (proj1 (proj2 (updateRequiresPreDeletion_iff_recorded_less
                           (aws unpinned) (upgrade "" "v1.0.0")))
             (record_ "") eq_refl eq_refl).
Defined.

(** A pass on a fresh provider against the remote repository: without a
    pinned version [load] sets the target version to the default version
    v2.0.0 and reads the metadata at it; with the version v1.5.0 pinned,
    that version is the target and the one read. *)
Lemma load_target_version_examples :
  (∃ err st',
     load (start (reconciler (aws unpinned) (clusterWith ∅ ∅) healthy))
     = Returns
         (reconcile.empty,
          wrapPhaseError err "CAPIVersionIncompatibility" "PreflightCheckPassed")
         st'
     ∧ repository.Version (options (self st')) = "v2.0.0"
     ∧ reads (calls st') = [("v2.0.0", "metadata.yaml")])
  ∧ (∃ err st',
       load (start (reconciler
                      (aws (operatorv1.mkProviderSpec (Some "v1.5.0") None None))
                      (clusterWith ∅ ∅) healthy))
       = Returns
           (reconcile.empty,
            wrapPhaseError err "CAPIVersionIncompatibility" "PreflightCheckPassed")
           st'
       ∧ repository.Version (options (self st')) = "v1.5.0"
       ∧ reads (calls st') = [("v1.5.0", "metadata.yaml")]).
Proof.
  split.
  - pose (st := start (reconciler (aws unpinned) (clusterWith ∅ ∅) healthy)).
    destruct (load_sets_target_version st [] st [] "aws" remoteRepository
                (configured st [] "aws") eq_refl eq_refl eq_refl eq_refl)
      as (err & st' & Hload & Hversion & Hreads & _).
    exists err, st'. auto.
  - pose (st := start (reconciler
                         (aws (operatorv1.mkProviderSpec (Some "v1.5.0") None None))
                         (clusterWith ∅ ∅) healthy)).
    destruct (load_sets_target_version st [] st [] "aws" remoteRepository
                (configured st [] "aws") eq_refl eq_refl eq_refl eq_refl)
      as (err & st' & Hload & Hversion & Hreads & _).
    exists err, st'. auto.
Defined.

(** A contract outside the list is refused, with the three names in the
    text of the error; a contract of the list is stored. *)
Lemma validateRepoCAPIVersion_examples :
  (∃ st',
     validateRepoCAPIVersion (aws unpinned) (loaded "v1alpha3")
     = Returns
         (Some (Errorf capiVersionIncompatibilityMessage
                  [opString "v1beta1"; opString "v1alpha3"; opString "aws"]))
         st'
     ∧ fmt.Sprintf capiVersionIncompatibilityMessage
         [opString "v1beta1"; opString "v1alpha3"; opString "aws"]
       = Some "CAPI operator is only compatible with v1beta1 providers, detected v1alpha3 for provider aws.")
  ∧ (∃ st',
       validateRepoCAPIVersion (aws unpinned) (loaded "v1beta1")
       = Returns None st'
       ∧ contract (self st') = "v1beta1").
Proof.
  pose (v200 := versionutil.mkVersion [2; 0; 0]%N true "" "").
  split.
  - destruct (proj1 (validateRepoCAPIVersion_checks_contract (aws unpinned)
                (loaded "v1alpha3") (declaring "v1alpha3") "v1alpha3"
                (clusterctlv1.mkMetadata
                   [clusterctlv1.mkReleaseSeries 1 0 "v1alpha3";
                    clusterctlv1.mkReleaseSeries 2 0 "v1alpha3"])
                v200 (clusterctlv1.mkReleaseSeries 2 0 "v1alpha3")
                eq_refl eq_refl eq_refl eq_refl eq_refl))
      as [Hrun Htext].
    { intros [Hc | Hc]; discriminate Hc. }
    eexists. split; [exact Hrun |].
    exact (Htext "CAPI operator is only compatible with "
             " providers, detected " " for provider " "."
             eq_refl eq_refl eq_refl eq_refl eq_refl).
  - destruct (proj2 (validateRepoCAPIVersion_checks_contract (aws unpinned)
                (loaded "v1beta1") (declaring "v1beta1") "v1beta1"
                (clusterctlv1.mkMetadata
                   [clusterctlv1.mkReleaseSeries 1 0 "v1beta1";
                    clusterctlv1.mkReleaseSeries 2 0 "v1beta1"])
                v200 (clusterctlv1.mkReleaseSeries 2 0 "v1beta1")
                eq_refl eq_refl eq_refl eq_refl eq_refl))
      as (Hrun & Hcontract & _).
    { right. reflexivity. }
    eexists. split; [exact Hrun | exact Hcontract].
Defined.

(** A config map named by a valid version: without [metadata] the
    construction fails naming [metadata], with [components] present or
    not; with [metadata] alone it fails naming [components]. *)
Lemma configmapRepository_missing_key_examples :
  (∃ st',
     configmapRepository (Some (ref "v1.2.3"))
       (holding (configMap "v1.2.3" None onlyComponents))
     = Returns (Err (Errorf "ConfigMap %s/%s has no metadata"
                       [opString "capa-system"; opString "v1.2.3"])) st'
     ∧ fmt.Sprintf "ConfigMap %s/%s has no metadata"
         [opString "capa-system"; opString "v1.2.3"]
       = Some "ConfigMap capa-system/v1.2.3 has no metadata")
  ∧ (∃ st',
       configmapRepository (Some (ref "v1.2.3"))
         (holding (configMap "v1.2.3" None noFiles))
       = Returns (Err (Errorf "ConfigMap %s/%s has no metadata"
                         [opString "capa-system"; opString "v1.2.3"])) st')
  ∧ (∃ st',
       configmapRepository (Some (ref "v1.2.3"))
         (holding (configMap "v1.2.3" None onlyMetadata))
       = Returns (Err (Errorf "ConfigMap %s/%s has no components"
                         [opString "capa-system"; opString "v1.2.3"])) st').
Proof.
  pose (v123 := versionutil.mkVersion [1; 2; 3]%N true "" "").
  split; [| split].
  - destruct (proj1 (configmapRepository_missing_key
                (holding (configMap "v1.2.3" None onlyComponents))
                (ref "v1.2.3") (configMap "v1.2.3" None onlyComponents) v123
                eq_refl eq_refl) eq_refl) as [Hrun Htext].
    eexists. split; [exact Hrun | exact Htext].
  - destruct (proj1 (configmapRepository_missing_key
                (holding (configMap "v1.2.3" None noFiles))
                (ref "v1.2.3") (configMap "v1.2.3" None noFiles) v123
                eq_refl eq_refl) eq_refl) as [Hrun _].
    eexists. exact Hrun.
  - destruct (proj2 (configmapRepository_missing_key
                (holding (configMap "v1.2.3" None onlyMetadata))
                (ref "v1.2.3") (configMap "v1.2.3" None onlyMetadata) v123
                eq_refl eq_refl) "v1beta1" eq_refl eq_refl) as [Hrun _].
    eexists. exact Hrun.
Defined.

(** A config map without [metadata] whose name is not a version: the
    construction fails on the version, and the text of its error does not
    name [metadata]. *)
Lemma configmapRepository_invalid_version_before_missing_metadata :
  corev1.Data (configMap "aws-components" None onlyComponents) !! "metadata"
  = None
  ∧ ∃ st',
      configmapRepository (Some (ref "aws-components"))
        (holding (configMap "aws-components" None onlyComponents))
      = Returns
          (Err (Errorf "ConfigMap %s/%s has invalid version:%s (%s)"
                  [opString "capa-system"; opString "aws-components";
                   opString "aws-components"; opString "from the Name"])) st'
      ∧ fmt.Sprintf "ConfigMap %s/%s has invalid version:%s (%s)"
          [opString "capa-system"; opString "aws-components";
           opString "aws-components"; opString "from the Name"]
        = Some "ConfigMap capa-system/aws-components has invalid version:aws-components (from the Name)"
      ∧ Contains
          "ConfigMap capa-system/aws-components has invalid version:aws-components (from the Name)"
          "metadata" = false.
Proof.
  split; [reflexivity |].
  exists (after (holding (configMap "aws-components" None onlyComponents))
            (self (holding (configMap "aws-components" None onlyComponents)))
            (CallGetConfigMap (configMapKey (ref "aws-components")))).
  repeat split; reflexivity.
Qed.

(** The examples of the specification for the in-memory repository: a
    config map named v1.2.3 without labels gives the default version
    v1.2.3; a version label v1.3.0 gives v1.3.0; an invalid name is
    reported "from the Name", an invalid label "from the Label". *)
Lemma configmapRepository_version_examples :
  (∃ r st',
     configmapRepository (Some (ref "v1.2.3"))
       (holding (configMap "v1.2.3" None bothFiles))
     = Returns (Ok r) st'
     ∧ repository.DefaultVersion r = "v1.2.3")
  ∧ (∃ r st',
       configmapRepository (Some (ref "aws-components"))
         (holding (configMap "aws-components" (versionLabelled "v1.3.0") bothFiles))
       = Returns (Ok r) st'
       ∧ repository.DefaultVersion r = "v1.3.0")
  ∧ fmt.Sprintf "ConfigMap %s/%s has invalid version:%s (%s)"
      [opString "capa-system"; opString "aws-components";
       opString "aws-components"; opString "from the Name"]
    = Some "ConfigMap capa-system/aws-components has invalid version:aws-components (from the Name)"
  ∧ fmt.Sprintf "ConfigMap %s/%s has invalid version:%s (%s)"
      [opString "capa-system"; opString "aws-components"; opString "latest";
       opString "from the Label provider.cluster.x-k8s.io/version"]
    = Some "ConfigMap capa-system/aws-components has invalid version:latest (from the Label provider.cluster.x-k8s.io/version)".
Proof.
  pose (v123 := versionutil.mkVersion [1; 2; 3]%N true "" "").
  pose (v130 := versionutil.mkVersion [1; 3; 0]%N true "" "").
  split; [| split; [| split]].
  - destruct (proj2 (proj1 (configmapRepository_version_from_label_or_name (api:=fakeAPI)
                (holding (configMap "v1.2.3" None bothFiles)) (ref "v1.2.3")
                (configMap "v1.2.3" None bothFiles) eq_refl) eq_refl)
                v123 "v1beta1" "kind: Deployment" eq_refl eq_refl eq_refl)
      as (r & Hrun & Hdefault & _).
    exists r. eexists. split; [exact Hrun | exact Hdefault].
  - destruct (proj2 (proj2 (proj2 (configmapRepository_version_from_label_or_name (api:=fakeAPI)
                (holding (configMap "aws-components" (versionLabelled "v1.3.0")
                           bothFiles))
                (ref "aws-components")
                (configMap "aws-components" (versionLabelled "v1.3.0") bothFiles)
                eq_refl))
                (labels "v1.3.0") "v1.3.0"
                eq_refl eq_refl)
                v130 "v1beta1" "kind: Deployment" eq_refl eq_refl eq_refl)
      as (r & Hrun & Hdefault & _).
    exists r. eexists. split; [exact Hrun | exact Hdefault].
  - exact (proj2 (proj1 (proj1 (configmapRepository_version_from_label_or_name (api:=fakeAPI)
             (holding (configMap "aws-components" None bothFiles))
             (ref "aws-components")
             (configMap "aws-components" None bothFiles) eq_refl) eq_refl)
             (Errorf "could not parse %q as version" [opString "aws-components"])
             eq_refl)).
  - exact (proj2 (proj1 (proj2 (proj2 (configmapRepository_version_from_label_or_name (api:=fakeAPI)
             (holding (configMap "aws-components" (versionLabelled "latest")
                        bothFiles))
             (ref "aws-components")
             (configMap "aws-components" (versionLabelled "latest") bothFiles)
             eq_refl))
             (labels "latest") "latest"
             eq_refl eq_refl)
             (Errorf "could not parse %q as version" [opString "latest"])
             eq_refl)).
Defined.

(** A selector with match labels is rejected on the path
    [spec.fetchConfig], here with a valid version beside it. *)
Lemma validateProviderSpec_selector_example :
  webhook.validateProviderSpec selectorWithMatchLabels
  = [selectorConflict selectorWithMatchLabels]
  ∧ field.Field (selectorConflict selectorWithMatchLabels) = "spec.fetchConfig".
Proof.
  destruct (validateProviderSpec_rejects_selector_with_matchLabels
              selectorWithMatchLabels fetchBySelector selector matchAws
              eq_refl eq_refl eq_refl)
    as (_ & _ & _ & Hfield).
  split; [reflexivity | exact Hfield].
Defined.

(** The installer timing out gives the timeout reason, any other error
    of the installer the generic one. *)
Lemma install_failure_examples :
  (∃ st',
     install (start (reconciler (aws unpinned) (clusterWith ∅ ∅)
                       (mkFakeCluster None (Some ErrWaitTimeout) None)))
     = Returns
         (reconcile.empty,
          Some (PhaseError "Timedout waiting for deployment to become ready"
                  "ProviderInstalled" ConditionSeverityWarning ErrWaitTimeout))
         st')
  ∧ (∃ st',
       install (start (reconciler (aws unpinned) (clusterWith ∅ ∅)
                         (mkFakeCluster None (Some (Errorf "denied" [])) None)))
       = Returns
           (reconcile.empty,
            Some (PhaseError "Install failed" "ProviderInstalled"
                    ConditionSeverityWarning (Errorf "denied" [])))
           st').
Proof.
  split.
  - destruct (install_classifies_installer_error
                (start (reconciler (aws unpinned) (clusterWith ∅ ∅)
                          (mkFakeCluster None (Some ErrWaitTimeout) None)))
                ErrWaitTimeout eq_refl) as (reason & Hrun & Htimeout & _).
    rewrite (proj2 Htimeout eq_refl) in Hrun. eexists. exact Hrun.
  - destruct (install_classifies_installer_error
                (start (reconciler (aws unpinned) (clusterWith ∅ ∅)
                          (mkFakeCluster None (Some (Errorf "denied" [])) None)))
                (Errorf "denied" []) eq_refl) as (reason & Hrun & _ & Hgeneric).
    rewrite (proj2 Hgeneric) in Hrun by discriminate. eexists. exact Hrun.
Defined.

(** A version that does not parse is reported on the path
    [spec.version]; the empty version is not. *)
Lemma validateProviderSpec_version_examples :
  In (invalidVersion (versioned "latest")
        (Errorf "could not parse %q as version" [opString "latest"]))
     (webhook.validateProviderSpec (versioned "latest"))
  ∧ webhook.validateProviderSpec (versioned "") = [].
Proof.
  split.
  - apply (proj1 (proj2 (validateProviderSpec_version_error_iff
                          (versioned "latest")))).
    + discriminate.
    + reflexivity.
  - reflexivity.
Defined.

End OnTheScenario.

(* ================================================================== *)
(** * Part III: further properties of the code *)
(* ================================================================== *)

(** ** Names of the provider records *)

Lemma length_append (s t : string) :
  String.length (s +:+ t) = (String.length s + String.length t)%nat.
Proof.
  induction s as [| c s IH]; [reflexivity |].
  change (String c s +:+ t) with (String c (s +:+ t)). simpl. now rewrite IH.
Qed.

Lemma append_not_longer (s t : string) : s +:+ t = t → s = "".
Proof.
  intros Heq. apply (f_equal String.length) in Heq.
  rewrite length_append in Heq. destruct s; [reflexivity | simpl in Heq; lia].
Qed.

(** X1: the key under which the record of a provider is kept keeps the
    namespace of the provider, and two providers of the same name have
    the same key only if they are of the same kind. *)
Theorem clusterctlProviderName_separates_kinds (p q : GenericProvider) :
  controllers.clusterctlProviderName p = controllers.clusterctlProviderName q →
  GetName p = GetName q →
  GetObject p = GetObject q ∧ GetNamespace p = GetNamespace q.
Proof.
  unfold controllers.clusterctlProviderName. intros [= Hns Hname] Hsame.
  split; [| exact Hns]. rewrite Hsame in Hname.
  destruct (GetObject p), (GetObject q); try reflexivity; exfalso;
    first [ discriminate Hname
          | apply append_not_longer in Hname; discriminate Hname
          | symmetry in Hname; apply append_not_longer in Hname;
            discriminate Hname ].
Qed.

(** The name alone does not separate the kinds: a core provider named
    [bootstrap-n] has the key of the bootstrap provider [n]. *)
Lemma clusterctlProviderName_collision (n ns : string) (g : Z)
    (spec : operatorv1.ProviderSpec) (status : operatorv1.ProviderStatus) :
  controllers.clusterctlProviderName
    (mkGenericProvider CoreProvider ("bootstrap-" +:+ n) ns g spec status)
  = controllers.clusterctlProviderName
      (mkGenericProvider BootstrapProvider n ns g spec status).
Proof. reflexivity. Qed.

(** ** Deletion and the upgrade path *)

Section UpgradePath.

Context `{library : Clusterctl} `{api : !OperatorAPI}.

Import controllers.

Implicit Types (st : State) (p : phaseReconciler) (provider : GenericProvider).



(** What [updateRequiresPreDeletion] returns, read backwards: one call
    was made, an error comes with the answer [false], and the answer
    [true] comes from a record with a version that parses and is less
    than the version of the components, which parses too. *)
Lemma updateRequiresPreDeletion_inv provider st need err st' :
  updateRequiresPreDeletion provider st = Returns (need, err) st' →
  added st st' [CallGetProvider (clusterctlProviderName provider)]
  ∧ (err ≠ None → need = false)
  ∧ (need = true →
     err = None
     ∧ ∃ found c currentVersion nextVersion,
         GetProvider (ctrlClient (self st)) (clusterctlProviderName provider)
         = Ok found
         ∧ clusterctlv1.Version found ≠ ""
         ∧ components (self st) = Some c
         ∧ versionutil.ParseSemantic (Components_Version c) = Ok nextVersion
         ∧ versionutil.ParseSemantic (clusterctlv1.Version found)
           = Ok currentVersion
         ∧ versionutil.LessThan currentVersion nextVersion = true
         ∧ self st' = set_clusterctlProvider found (self st)).
Proof.
  unfold updateRequiresPreDeletion, added. run. intros Hrun.
  repeat case_scrutinee; (split; [reflexivity |]);
    (split; [intros Herr; congruence |]); intros Hneed; try discriminate Hneed.
  split; [reflexivity |].
  match goal with
  | Hv : String.eqb _ "" = false |- _ => apply String.eqb_neq in Hv
  end.
  eauto 12.
Qed.

Lemma updateRequiresPreDeletion_compares
    provider st found c currentVersion nextVersion :
  GetProvider (ctrlClient (self st)) (clusterctlProviderName provider)
  = Ok found →
  clusterctlv1.Version found ≠ "" →
  components (self st) = Some c →
  versionutil.ParseSemantic (Components_Version c) = Ok nextVersion →
  versionutil.ParseSemantic (clusterctlv1.Version found) = Ok currentVersion →
  updateRequiresPreDeletion provider st
  = Returns (versionutil.LessThan currentVersion nextVersion, None)
      (after st (set_clusterctlProvider found (self st))
         (CallGetProvider (clusterctlProviderName provider))).
Proof.
  intros Hget Hv Hc Hnext Hcur. apply String.eqb_neq in Hv.
  unfold updateRequiresPreDeletion. run.
  rewrite Hget. simpl. rewrite Hv, Hc. simpl. now rewrite Hnext, Hcur.
Qed.

(** X3: the failures of [updateRequiresPreDeletion].  An error of the
    record store other than NotFound is returned as it is; with a record
    that has a version, the version of the components is parsed first and
    its error returned, then the recorded one; nil components panic; none
    of these answers [true], and no answer [true] ever comes with an
    error. *)
Theorem updateRequiresPreDeletion_failures provider st :
  let key := clusterctlProviderName provider in
  let looked p := after st p (CallGetProvider key) in
  (∀ err,
     GetProvider (ctrlClient (self st)) key = Err err →
     apierrors.IsNotFound err = false →
     updateRequiresPreDeletion provider st
     = Returns (false, Some err) (looked (self st)))
  ∧ (∀ found,
       GetProvider (ctrlClient (self st)) key = Ok found →
       clusterctlv1.Version found ≠ "" →
       (components (self st) = None →
        updateRequiresPreDeletion provider st = Panics)
       ∧ (∀ c err,
            components (self st) = Some c →
            versionutil.ParseSemantic (Components_Version c) = Err err →
            updateRequiresPreDeletion provider st
            = Returns (false, Some err)
                (looked (set_clusterctlProvider found (self st))))
       ∧ (∀ c nextVersion err,
            components (self st) = Some c →
            versionutil.ParseSemantic (Components_Version c) = Ok nextVersion →
            versionutil.ParseSemantic (clusterctlv1.Version found) = Err err →
            updateRequiresPreDeletion provider st
            = Returns (false, Some err)
                (looked (set_clusterctlProvider found (self st)))))
  ∧ (∀ need err st',
       updateRequiresPreDeletion provider st = Returns (need, err) st' →
       need = true → err = None).
Proof.
  simpl. split; [| split].
  - intros err Hget Hnf. unfold updateRequiresPreDeletion. run.
    now rewrite Hget, Hnf.
  - intros found Hget Hv. apply String.eqb_neq in Hv.
    split; [| split].
    + intros Hc. unfold updateRequiresPreDeletion. run.
      now rewrite Hget, Hv, Hc.
    + intros c err Hc Hnext. unfold updateRequiresPreDeletion. run.
      rewrite Hget. simpl. rewrite Hv, Hc. simpl. now rewrite Hnext.
    + intros c nextVersion err Hc Hnext Hcur.
      unfold updateRequiresPreDeletion. run.
      rewrite Hget. simpl. rewrite Hv, Hc. simpl. now rewrite Hnext, Hcur.
  - intros need err st' Hrun Hneed.
    now apply (updateRequiresPreDeletion_inv provider st need err st').
Qed.

(** X4: the upgrade path of [preInstall].  With the CRDs ensured and a
    record whose version is less than the version of the components,
    [preInstall] makes three calls, the last being [Delete] on the
    identity of the provider with the recorded version (not the target
    version), namespace and CRDs excluded, and fails only if that call
    does. *)
Theorem preInstall_upgrade_deletes_recorded_version
    st found c currentVersion nextVersion :
  EnsureCustomResourceDefinitions (newClusterClient (self st)) = None →
  GetProvider (ctrlClient (self st))
    (clusterctlProviderName (provider (self st))) = Ok found →
  clusterctlv1.Version found ≠ "" →
  components (self st) = Some c →
  versionutil.ParseSemantic (Components_Version c) = Ok nextVersion →
  versionutil.ParseSemantic (clusterctlv1.Version found) = Ok currentVersion →
  versionutil.LessThan currentVersion nextVersion = true →
  ∃ o st',
    preInstall st =
      Returns
        (reconcile.empty,
         wrapPhaseError (Delete (newClusterClient (self st)) o)
           OldComponentsDeletionErrorReason ProviderInstalledCondition) st'
    ∧ added st st'
        [CallEnsureCustomResourceDefinitions;
         CallGetProvider (clusterctlProviderName (provider (self st)));
         CallDelete o]
    ∧ clusterctlv1.Version (cluster.Provider o) = clusterctlv1.Version found
    ∧ clusterctlv1.Name (cluster.Provider o)
      = Name (clusterctlProviderName (provider (self st)))
    ∧ cluster.IncludeNamespace o = false
    ∧ cluster.IncludeCRDs o = false
    ∧ clusterctlProvider (self st') = cluster.Provider o.
Proof.
  intros Hensure Hget Hv Hc Hnext Hcur Hless.
  do 2 eexists. split.
  - unfold preInstall. run. rewrite Hensure.
    rewrite (updateRequiresPreDeletion_compares (provider (self st))
               (mkState (self st)
                  (calls st ++ [CallEnsureCustomResourceDefinitions]))
               found c currentVersion nextVersion Hget Hv Hc Hnext Hcur).
    rewrite Hless. simpl. unfold delete. run.
    apply String.eqb_neq in Hv. rewrite Hv. reflexivity.
  - unfold added. simpl. rewrite <- !app_assoc. repeat split; reflexivity.
Qed.


End UpgradePath.

(** ** What the phases return and leave *)

Section PhaseOutcomes.

Context `{library : Clusterctl} `{api : !OperatorAPI}.

Import controllers.

Implicit Types (st : State) (p : phaseReconciler) (provider : GenericProvider).

(** X6: when the installer succeeds, [install] returns no error and
    leaves a provider that differs from the one it found in this only:
    the version of the spec is pinned to the version of the components if
    none was pinned (a pinned version is kept, and then nil components do
    no harm), the status carries the contract of the reconciler and the
    generation of the provider as observed generation, and the
    provider-installed condition is set to true on it. *)
Theorem install_success_pins_version_and_records_contract st :
  Install (newClusterClient (self st)) (components (self st))
    (cluster.mkInstallOptions false 0) = None →
  let p := self st in
  let spec := GetSpec (provider p) in
  let done installed :=
    Returns (reconcile.empty, None)
      (after st
         (set_provider
            (conditions_Set installed
               (conditions.TrueCondition ProviderInstalledCondition)) p)
         (CallInstall (components p) (cluster.mkInstallOptions false 0))) in
  let recorded (version : option string) :=
    mkGenericProvider (GetObject (provider p)) (GetName (provider p))
      (GetNamespace (provider p)) (GetGeneration (provider p))
      (operatorv1.mkProviderSpec version (operatorv1.SecretName spec)
         (operatorv1.FetchConfig spec))
      (operatorv1.mkProviderStatus (Some (contract p))
         (operatorv1.Conditions (GetStatus (provider p)))
         (GetGeneration (provider p))) in
  (∀ v, operatorv1.Version spec = Some v →
        install st = done (recorded (Some v)))
  ∧ (∀ c, operatorv1.Version spec = None → components p = Some c →
          install st = done (recorded (Some (Components_Version c))))
  ∧ (operatorv1.Version spec = None → components p = None →
     install st = Panics).
Proof.
  intros Hinstall. simpl. split; [| split].
  - intros v Hv. unfold install. run. rewrite Hinstall, Hv. simpl.
    assert (Hkept :
      SetStatus (provider (self st))
        (operatorv1.mkProviderStatus (Some (contract (self st)))
           (operatorv1.Conditions (GetStatus (provider (self st))))
           (GetGeneration (provider (self st))))
      = mkGenericProvider (GetObject (provider (self st)))
          (GetName (provider (self st))) (GetNamespace (provider (self st)))
          (GetGeneration (provider (self st)))
          (operatorv1.mkProviderSpec (Some v)
             (operatorv1.SecretName (GetSpec (provider (self st))))
             (operatorv1.FetchConfig (GetSpec (provider (self st)))))
          (operatorv1.mkProviderStatus (Some (contract (self st)))
             (operatorv1.Conditions (GetStatus (provider (self st))))
             (GetGeneration (provider (self st))))).
    { destruct (provider (self st)) as [o n ns g [v' s f] status];
        simpl in *. now subst. }
    now rewrite Hkept.
  - intros c Hv Hc. unfold install. run. rewrite Hinstall, Hv, Hc. reflexivity.
  - intros Hv Hc. unfold install. run. now rewrite Hinstall, Hv, Hc.
Qed.

(** X7: no phase ever asks for a requeue, and an error of [fetch],
    [preInstall], [install] or [delete] is always a [PhaseError] of
    severity warning: on the preflight condition with the reason
    [ComponentsFetchErrorReason] for [fetch], on the provider-installed
    condition for the other three. *)
Theorem phases_return_classified_errors st res err st' :
  (∀ phase, In phase [load; fetch; preInstall; install; delete] →
            phase st = Returns (res, err) st' → res = reconcile.empty)
  ∧ (fetch st = Returns (res, err) st' →
     ∀ e, err = Some e →
          ∃ cause, e = PhaseError ComponentsFetchErrorReason
                         PreflightCheckCondition ConditionSeverityWarning cause)
  ∧ (∀ phase, In phase [preInstall; install; delete] →
              phase st = Returns (res, err) st' →
              ∀ e, err = Some e →
                   ∃ reason cause,
                     e = PhaseError reason ProviderInstalledCondition
                           ConditionSeverityWarning cause).
Proof.
  split; [| split].
  - intros phase [<- | [<- | [<- | [<- | [<- | []]]]]].
    + unfold load. run. intros Hrun. repeat case_scrutinee; reflexivity.
    + unfold fetch. run. intros Hrun. repeat case_scrutinee; reflexivity.
    + unfold preInstall, delete. run. intros Hrun.
      repeat case_scrutinee; reflexivity.
    + unfold install. run. intros Hrun. repeat case_scrutinee; reflexivity.
    + unfold delete. run. intros Hrun. now simplify_eq.
  - unfold fetch. run. intros Hrun e ->.
    repeat case_scrutinee; eauto.
  - intros phase [<- | [<- | [<- | []]]].
    + unfold preInstall, delete. run. intros Hrun e ->.
      destruct (EnsureCustomResourceDefinitions (newClusterClient (self st)));
        [simplify_eq; eauto |].
      destruct (updateRequiresPreDeletion (provider (self st)) _)
        as [[need cause] st1 |]; [| discriminate].
      destruct (notNil cause || negb need).
      * destruct cause; simplify_eq/=; eauto.
      * simpl in Hrun.
        destruct (Delete _ _); simplify_eq/=; eauto.
    + unfold install. run. intros Hrun e ->.
      repeat case_scrutinee; eauto.
    + unfold delete. run. intros Hrun e ->.
      destruct (Delete _ _); simplify_eq/=; eauto.
Qed.

(** X8: the two ways [configmapRepository] fails before it looks at the
    config map: a nil reference is refused without any call, and an error
    of the lookup (at the namespace and name of the reference) is
    returned as it is; whatever it returns, it leaves the reconciler as it
    was. *)
Theorem configmapRepository_lookup_failures st :
  configmapRepository None st
  = Returns (Err (Errorf "configmap reference is nil" [])) st
  ∧ (∀ ref err,
       GetConfigMap (ctrlClient (self st)) (configMapKey ref) = Err err →
       configmapRepository (Some ref) st
       = Returns (Err err)
           (after st (self st) (CallGetConfigMap (configMapKey ref))))
  ∧ (∀ ref res st',
       configmapRepository ref st = Returns res st' →
       self st' = self st
       ∧ (ref = None → calls st' = calls st)
       ∧ (∀ r, ref = Some r →
               added st st' [CallGetConfigMap (configMapKey r)])).
Proof.
  split; [| split].
  - destruct st. reflexivity.
  - intros ref err Hget. unfold configmapRepository. run.
    fold (configMapKey ref). now rewrite Hget.
  - intros ref res st'. unfold configmapRepository, added. run. intros Hrun.
    repeat case_scrutinee; repeat split; try reflexivity;
      try discriminate; intros r' [= <-]; reflexivity.
Qed.

(** What [validateRepoCAPIVersion] returns, read backwards: it needs a
    repository, reads the metadata file once at the version of the
    options, stores a contract only when it returns no error, and only a
    contract of the list. *)
Lemma validateRepoCAPIVersion_inv provider st err st' :
  validateRepoCAPIVersion provider st = Returns err st' →
  (∃ r, repo (self st) = Some r)
  ∧ added st st'
      [CallGetFile (repository.Version (options (self st))) metadataFile]
  ∧ (err = None →
     allowed (contract (self st'))
     ∧ self st' = set_contract (contract (self st')) (self st))
  ∧ (err ≠ None → self st' = self st).
Proof.
  unfold validateRepoCAPIVersion, added, allowed. run. intros Hrun.
  repeat case_scrutinee; (split; [eauto |]); (split; [reflexivity |]);
    (split; [intros Hnil; try discriminate Hnil
            | intros Hsome; try reflexivity; try congruence]).
  split; [| reflexivity].
  match goal with
  | Hb : negb _ && negb _ = false |- _ =>
      apply andb_false_iff in Hb as [Hb | Hb];
        apply negb_false_iff, String.eqb_eq in Hb; auto
  end.
Qed.

(** X9: the failures of [validateRepoCAPIVersion], in the order the
    code meets them.  Without a repository it panics.  With one it reads
    the metadata file first and wraps the error of the read; then the
    error of the decoding; only then does it parse the version of the
    options, wrapping the error; and a version no release series matches
    is refused with a text that names the version and the provider.  None
    of them changes the reconciler. *)
Theorem validateRepoCAPIVersion_failures provider st :
  let version := repository.Version (options (self st)) in
  let name := GetName provider in
  let read := after st (self st) (CallGetFile version metadataFile) in
  (repo (self st) = None → validateRepoCAPIVersion provider st = Panics)
  ∧ ∀ r, repo (self st) = Some r →
      (∀ err,
         repository.GetFile r version metadataFile = Err err →
         validateRepoCAPIVersion provider st
         = Returns
             (Some (Wrapf err
                      "failed to read %q from the repository for provider %q"
                      [opString metadataFile; opString name])) read)
      ∧ (∀ file err,
           repository.GetFile r version metadataFile = Ok file →
           DecodeInto file = Err err →
           validateRepoCAPIVersion provider st
           = Returns
               (Some (Wrapf err "error decoding %q for provider %q"
                        [opString metadataFile; opString name])) read)
      ∧ (∀ file metadata err,
           repository.GetFile r version metadataFile = Ok file →
           DecodeInto file = Ok metadata →
           versionutil.ParseSemantic version = Err err →
           validateRepoCAPIVersion provider st
           = Returns
               (Some (Wrapf err
                        "failed to parse current version for the %s provider"
                        [opString name])) read)
      ∧ (∀ file metadata currentVersion,
           repository.GetFile r version metadataFile = Ok file →
           DecodeInto file = Ok metadata →
           versionutil.ParseSemantic version = Ok currentVersion →
           GetReleaseSeriesForVersion metadata currentVersion = None →
           validateRepoCAPIVersion provider st
           = Returns
               (Some (Errorf
                        "invalid provider metadata: version %s for the provider %s does not match any release series"
                        [opString version; opString name])) read
           ∧ fmt.Sprintf
               "invalid provider metadata: version %s for the provider %s does not match any release series"
               [opString version; opString name]
             = Some ("invalid provider metadata: version " +:+ version
                     +:+ " for the provider " +:+ name
                     +:+ " does not match any release series")).
Proof.
  simpl. split.
  - intros Hrepo. unfold validateRepoCAPIVersion. run. now rewrite Hrepo.
  - intros r Hrepo. split; [| split; [| split]].
    + intros err Hfile. unfold validateRepoCAPIVersion. run.
      rewrite Hrepo. simpl. now rewrite Hfile.
    + intros file err Hfile Hdecode. unfold validateRepoCAPIVersion. run.
      rewrite Hrepo. simpl. now rewrite Hfile, Hdecode.
    + intros file metadata err Hfile Hdecode Hparse.
      unfold validateRepoCAPIVersion. run.
      rewrite Hrepo. simpl. now rewrite Hfile, Hdecode, Hparse.
    + intros file metadata currentVersion Hfile Hdecode Hparse Hseries.
      split; [| reflexivity].
      unfold validateRepoCAPIVersion. run.
      rewrite Hrepo. simpl. now rewrite Hfile, Hdecode, Hparse, Hseries.
Qed.

(** X10: the failures of [load] before the version is computed.  An
    error of the secret reader is wrapped on the preflight condition and
    nothing is stored; an error of [configclient.New] is returned as it
    is, not as a [PhaseError], and the configuration client is left nil;
    an unknown provider is wrapped with [UnknownProviderReason] and the
    provider configuration left nil; a repository that cannot be built is
    wrapped and the repository left nil.  In none of these cases are the
    options or the contract touched, or the repository read. *)
Theorem load_failures st :
  let p := self st in
  let failed reason err :=
    (reconcile.empty,
     Some (PhaseError reason PreflightCheckCondition
             ConditionSeverityWarning err)) in
  (∀ err st1,
     secretReader (provider p) st = Returns (Err err) st1 →
     load st = Returns (failed "failed to load the secret reader" err) st1)
  ∧ (∀ reader st1 err,
       secretReader (provider p) st = Returns (Ok reader) st1 →
       configclient_New "" reader = Err err →
       load st
       = Returns (reconcile.empty, Some err)
           (mkState (set_configClient None (self st1)) (calls st1)))
  ∧ (∀ reader st1 cc err,
       secretReader (provider p) st = Returns (Ok reader) st1 →
       configclient_New "" reader = Ok cc →
       Providers_Get cc (GetName (provider p))
         (ClusterctlProviderType (provider p)) = Err err →
       load st
       = Returns (failed UnknownProviderReason err)
           (mkState
              (set_providerConfig None (set_configClient (Some cc) (self st1)))
              (calls st1)))
  ∧ (∀ reader st1 cc pc err st2,
       secretReader (provider p) st = Returns (Ok reader) st1 →
       configclient_New "" reader = Ok cc →
       Providers_Get cc (GetName (provider p))
         (ClusterctlProviderType (provider p)) = Ok pc →
       selectRepository (provider p) pc cc (configured st1 cc pc)
       = Returns (Err err) st2 →
       load st
       = Returns (failed "failed to load the repository" err)
           (mkState (set_repo None (self st2)) (calls st2))
       ∧ options (set_repo None (self st2)) = options p
       ∧ contract (set_repo None (self st2)) = contract p
       ∧ reads (calls st2) = reads (calls st)).
Proof.
  simpl. split; [| split; [| split]].
  - intros err st1 Hreader. unfold load. run. now rewrite Hreader.
  - intros reader st1 err Hreader Hcc. unfold load. run.
    rewrite Hreader. simpl. now rewrite Hcc.
  - intros reader st1 cc err Hreader Hcc Hpc. unfold load. run.
    rewrite Hreader. simpl. rewrite Hcc. simpl. now rewrite Hpc.
  - intros reader st1 cc pc err st2 Hreader Hcc Hpc Hselect.
    split.
    + unfold load. unfold bind at 1. unfold get at 1. unfold bind at 1.
      rewrite Hreader. unfold bind at 1. unfold modify at 1. rewrite Hcc.
      unfold bind at 1. unfold modify at 1. rewrite Hpc.
      unfold bind at 1. unfold selectRepository, configured in Hselect.
      simpl in *. now rewrite Hselect.
    + destruct (selectRepository_frame _ _ _ _ _ _ Hselect) as [Hself Hreads].
      assert (Hsecret : self st1 = self st ∧ reads (calls st1) = reads (calls st)).
      { revert Hreader. unfold secretReader. run. intros Hreader.
        repeat case_scrutinee; rewrite ?reads_app, ?app_nil_r; auto. }
      destruct Hsecret as [Hself1 Hreads1].
      simpl. rewrite Hself. simpl. rewrite Hself1.
      unfold configured in Hreads. simpl in Hreads.
      repeat split; congruence.
Qed.

(** What [secretReader] returns, read backwards: the reconciler is as
    it was, and at most one call was made, the lookup of the secret named
    by the spec in the namespace of the provider. *)
Lemma secretReader_inv provider st r st' :
  secretReader provider st = Returns r st' →
  self st' = self st
  ∧ reads (calls st') = reads (calls st)
  ∧ (calls st' = calls st
     ∨ ∃ secretName,
         operatorv1.SecretName (GetSpec provider) = Some secretName
         ∧ added st st'
             [CallGetSecret (mkObjectKey (GetNamespace provider) secretName)]).
Proof.
  unfold secretReader, added. run. intros Hrun.
  repeat case_scrutinee; rewrite ?reads_app, ?app_nil_r;
    repeat split; eauto.
Qed.

(** X11: a [load] that returns no error leaves a reconciler ready for
    the later phases: repository, configuration client and provider
    configuration are set, the contract stored is one of the list, the
    options hold the target version (the pinned one, else the default
    version of the repository), the namespace of the provider and no
    skipping of the template processing; the provider, the components and
    the provider record are untouched, and the repository was read once,
    for the metadata at the target version. *)
Theorem load_success_leaves_a_loaded_reconciler st res st' :
  load st = Returns (res, None) st' →
  ∃ r cc pc,
    repo (self st') = Some r
    ∧ configClient (self st') = Some cc
    ∧ providerConfig (self st') = Some pc
    ∧ allowed (contract (self st'))
    ∧ options (self st')
      = repository.mkComponentsOptions
          match operatorv1.Version (GetSpec (provider (self st))) with
          | Some v => v
          | None => repository.DefaultVersion r
          end
          (GetNamespace (provider (self st))) false
    ∧ provider (self st') = provider (self st)
    ∧ components (self st') = components (self st)
    ∧ clusterctlProvider (self st') = clusterctlProvider (self st)
    ∧ reads (calls st')
      = reads (calls st)
        ++ [(repository.Version (options (self st')), metadataFile)].
Proof.
  unfold load. run. intros Hrun.
  repeat case_scrutinee;
    repeat match goal with
    | H : secretReader _ _ = Returns _ _ |- _ =>
        apply secretReader_inv in H as (? & ? & _)
    | H : configmapRepository _ _ = Returns _ _ |- _ =>
        apply configmapRepository_frame in H as (? & ?)
    | H : validateRepoCAPIVersion _ _ = Returns _ _ |- _ =>
        apply validateRepoCAPIVersion_inv in H as (_ & Hadded & Hnil & _);
        destruct (Hnil eq_refl) as [Hallowed Hself]; clear Hnil;
        unfold added in Hadded
    end;
    simpl in *;
    match goal with
    | |- ∃ r cc pc, repo _ = Some r ∧ configClient _ = Some cc
                     ∧ providerConfig _ = Some pc ∧ _ =>
        rewrite Hself, Hadded, reads_app; simpl; clear Hself;
        repeat match goal with
        | H : self _ = _ |- _ => rewrite H; simpl
        | H : reads _ = _ |- _ => rewrite H; simpl
        | H : operatorv1.Version _ = _ |- _ => rewrite H; simpl
        end;
        do 3 eexists; repeat split; try reflexivity; try assumption;
        repeat match goal with
        | H : self _ = _ |- _ => rewrite H; simpl
        | H : reads _ = _ |- _ => rewrite H; simpl
        end;
        reflexivity
    end.
Qed.


(** ** Panics

    A phase panics when it calls a method on a nil interface: the
    repository, the provider configuration or the components. *)

Lemma secretReader_returns provider st : secretReader provider st ≠ Panics.
Proof.
  unfold secretReader. run. intros Hrun. repeat case_scrutinee.
Qed.




Lemma updateRequiresPreDeletion_panics provider st :
  updateRequiresPreDeletion provider st = Panics
  ↔ components (self st) = None
    ∧ ∃ found,
        GetProvider (ctrlClient (self st)) (clusterctlProviderName provider)
        = Ok found
        ∧ clusterctlv1.Version found ≠ "".
Proof.
  unfold updateRequiresPreDeletion. run. split.
  - intros Hrun. repeat case_scrutinee.
    split; [reflexivity |]. eexists. split; [reflexivity |].
    now apply String.eqb_neq.
  - intros (Hc & found & Hget & Hv). apply String.eqb_neq in Hv.
    now rewrite Hget, Hv, Hc.
Qed.



(** ** fetch *)

(** What [fetch] returns, read backwards. *)
Lemma fetch_inv st res err st' :
  fetch st = Returns (res, err) st' →
  ∃ r,
    repo (self st) = Some r
    ∧ added st st'
        [CallGetFile (repository.Version (options (self st)))
           (repository.ComponentsPath r)]
    ∧ (err = None →
       (∃ c, components (self st') = Some c)
       ∧ provider (self st')
         = conditions_Set (provider (self st))
             (conditions.TrueCondition PreflightCheckCondition))
    ∧ (err ≠ None → provider (self st') = provider (self st))
    ∧ repo (self st') = repo (self st)
    ∧ options (self st') = options (self st)
    ∧ contract (self st') = contract (self st)
    ∧ providerConfig (self st') = providerConfig (self st)
    ∧ configClient (self st') = configClient (self st)
    ∧ ctrlClient (self st') = ctrlClient (self st)
    ∧ ctrlConfig (self st') = ctrlConfig (self st)
    ∧ clusterctlProvider (self st') = clusterctlProvider (self st).
Proof.
  unfold fetch, added. run. intros Hrun.
  repeat case_scrutinee; eexists; (split; [reflexivity |]);
    (split; [reflexivity |]);
    (split; [intros Hnil; try discriminate Hnil; eauto |]);
    (split; [intros Hsome; try reflexivity; congruence |]);
    repeat split; first [reflexivity | assumption].
Qed.

(** X13: the failures of [fetch], in the order the code meets them.
    Each is returned as a [PhaseError] on the preflight condition, after
    the one read of the components file at the version of the options.  A
    failed read leaves the reconciler as it was and names the path and the
    manifest label in its text; a failure of [NewComponents] erases the
    components of the reconciler; a failed customisation leaves the
    components it was applied to; in none of them is the preflight
    condition set. *)
Theorem fetch_failures st :
  ∀ r, repo (self st) = Some r →
    let version := repository.Version (options (self st)) in
    let path := repository.ComponentsPath r in
    let failed err p :=
      Returns
        (reconcile.empty,
         Some (PhaseError ComponentsFetchErrorReason PreflightCheckCondition
                 ConditionSeverityWarning err))
        (after st p (CallGetFile version path)) in
    (∀ err pc,
       repository.GetFile r version path = Err err →
       providerConfig (self st) = Some pc →
       fetch st
       = failed
           (Errorf "failed to read %q from provider's repository %q: %w"
              [opString path; opString (ManifestLabel pc); opError err])
           (self st))
    ∧ (∀ file err,
         repository.GetFile r version path = Ok file →
         NewComponents (providerConfig (self st)) (configClient (self st))
           file (options (self st)) = Err err →
         fetch st = failed err (set_components None (self st)))
    ∧ (∀ file c err c',
         repository.GetFile r version path = Ok file →
         NewComponents (providerConfig (self st)) (configClient (self st))
           file (options (self st)) = Ok c →
         AlterComponents c (customizeObjectsFn (provider (self st)))
         = (Some err, c') →
         fetch st = failed err (set_components (Some c') (self st))).
Proof.
  intros r Hrepo. simpl. split; [| split].
  - intros err pc Hfile Hpc. unfold fetch. run.
    rewrite Hrepo. simpl. now rewrite Hfile, Hpc.
  - intros file err Hfile Hnew. unfold fetch. run.
    rewrite Hrepo. simpl. now rewrite Hfile, Hnew.
  - intros file c err c' Hfile Hnew Halter. unfold fetch. run.
    rewrite Hrepo. simpl. now rewrite Hfile, Hnew, Halter.
Qed.

(** X14: what a [fetch] that returns leaves.  It had a repository and
    read it once, for the components file at the version of the options.
    When it returns no error the components are set and the provider is
    the one it found with the preflight condition set to true; when it
    returns an error the provider is as it was.  The repository, the
    options, the contract, the clients and the record of the provider are
    never touched. *)
Theorem fetch_sets_preflight_condition_only_on_success st res err st' :
  fetch st = Returns (res, err) st' →
  ∃ r,
    repo (self st) = Some r
    ∧ added st st'
        [CallGetFile (repository.Version (options (self st)))
           (repository.ComponentsPath r)]
    ∧ (err = None →
       (∃ c, components (self st') = Some c)
       ∧ provider (self st')
         = conditions_Set (provider (self st))
             (conditions.TrueCondition PreflightCheckCondition))
    ∧ (err ≠ None → provider (self st') = provider (self st))
    ∧ repo (self st') = repo (self st)
    ∧ options (self st') = options (self st)
    ∧ contract (self st') = contract (self st)
    ∧ providerConfig (self st') = providerConfig (self st)
    ∧ configClient (self st') = configClient (self st)
    ∧ clusterctlProvider (self st') = clusterctlProvider (self st).
Proof.
  intros Hrun.
  destruct (fetch_inv _ _ _ _ Hrun)
    as (r & Hrepo & Hadded & Hnil & Hsome & Hr & Ho & Hc & Hpc & Hcc & _ & _ & Hrec).
  exists r. repeat (split; [assumption |]). assumption.
Qed.

(** ** A pass *)

(** What a [load] without error leaves. *)
Lemma load_inv st res st' :
  load st = Returns (res, None) st' →
  ∃ r cc pc,
    repo (self st') = Some r
    ∧ configClient (self st') = Some cc
    ∧ providerConfig (self st') = Some pc.
Proof.
  unfold load. run. intros Hrun.
  repeat case_scrutinee;
    repeat match goal with
    | H : secretReader _ _ = Returns _ _ |- _ =>
        apply secretReader_inv in H as (? & _)
    | H : configmapRepository _ _ = Returns _ _ |- _ =>
        apply configmapRepository_frame in H as (? & _)
    | H : validateRepoCAPIVersion _ _ = Returns _ _ |- _ =>
        apply validateRepoCAPIVersion_inv in H as (_ & _ & Hnil & _);
        destruct (Hnil eq_refl) as [_ Hself]; clear Hnil
    end;
    simpl in *; rewrite Hself; clear Hself; simpl;
    do 3 eexists; repeat split; try reflexivity;
    repeat match goal with
    | H : self _ = _ |- _ => rewrite H; simpl
    end;
    reflexivity.
Qed.

Lemma preInstall_keeps_components st res st' :
  preInstall st = Returns res st' →
  components (self st') = components (self st).
Proof.
  unfold preInstall. run. intros Hrun.
  destruct (EnsureCustomResourceDefinitions (newClusterClient (self st)));
    [now simplify_eq |].
  destruct (updateRequiresPreDeletion (provider (self st)) _)
    as [[need cause] st1 |] eqn:Hupd; [| discriminate].
  assert (Hkept : components (self st1) = components (self st)).
  { revert Hupd. unfold updateRequiresPreDeletion. run. intros Hupd.
    repeat case_scrutinee; first [reflexivity | assumption]. }
  destruct (notNil cause || negb need); [now simplify_eq |].
  revert Hrun. unfold delete. run. intros [= <- <-]. exact Hkept.
Qed.

(** X15: the phases in order do not panic.  After a [load] that
    returned no error, [fetch] returns; and after a [fetch] that returned
    no error, [preInstall] returns and [install] returns after it, whatever
    [preInstall] returned: each interface a phase calls was set by the
    phase before it. *)
Theorem phases_in_order_do_not_panic st res st1 :
  load st = Returns (res, None) st1 →
  ∃ res2 err2 st2,
    fetch st1 = Returns (res2, err2) st2
    ∧ (err2 = None →
       ∃ res3 err3 st3,
         preInstall st2 = Returns (res3, err3) st3
         ∧ ∃ res4 err4 st4, install st3 = Returns (res4, err4) st4).
Proof.
  intros Hload.
  destruct (load_inv _ _ _ Hload) as (r & cc & pc & Hrepo & _ & Hpc).
  destruct (fetch_reads_at_options st1 r pc Hrepo Hpc)
    as ([res2 err2] & st2 & Hfetch & _).
  exists res2, err2, st2. split; [exact Hfetch |]. intros ->.
  destruct (fetch_inv _ _ _ _ Hfetch) as (_ & _ & _ & Hnil & _).
  destruct (Hnil eq_refl) as [[c Hc] _].
  destruct (preInstall st2) as [[res3 err3] st3 |] eqn:Hpre.
  - exists res3, err3, st3. split; [reflexivity |].
    apply preInstall_keeps_components in Hpre. rewrite Hc in Hpre.
    unfold install. run. rewrite Hpre.
    repeat case_scrutinee; eauto.
  - exfalso. revert Hpre. unfold preInstall. run.
    destruct (EnsureCustomResourceDefinitions (newClusterClient (self st2)));
      [discriminate |].
    destruct (updateRequiresPreDeletion (provider (self st2)) _)
      as [[need cause] st3 |] eqn:Hupd.
    + destruct (notNil cause || negb need); [discriminate |].
      unfold delete. run. discriminate.
    + apply updateRequiresPreDeletion_panics in Hupd as [Hnone _].
      simpl in Hnone. congruence.
Qed.

(** ** secretReader *)

(** X16: [secretReader] never panics and never changes the reconciler.
    An error of the initialisation of the reader is returned before any
    call.  Without a secret name no call is made, and the reader is the
    initialised one, with the provider added under its name, its type and
    the URL when the fetch configuration has one.  With a secret name the
    secret is looked up in the namespace of the provider, and an error of
    the lookup is returned as it is. *)
Theorem secretReader_outcomes provider st :
  let spec := GetSpec provider in
  secretReader provider st ≠ Panics
  ∧ (∀ r st', secretReader provider st = Returns r st' → self st' = self st)
  ∧ (∀ err,
       Reader_Init NewMemoryReader "" = Err err →
       secretReader provider st = Returns (Err err) st)
  ∧ ∀ mr,
      Reader_Init NewMemoryReader "" = Ok mr →
      (operatorv1.SecretName spec = None →
       operatorv1.FetchConfig spec = None →
       secretReader provider st = Returns (Ok mr) st)
      ∧ (∀ fc,
           operatorv1.SecretName spec = None →
           operatorv1.FetchConfig spec = Some fc →
           secretReader provider st
           = Returns
               match operatorv1.URL fc with
               | Some url =>
                   Reader_AddProvider mr (GetName provider)
                     (ClusterctlProviderType provider) url
               | None => Ok mr
               end st)
      ∧ (∀ secretName err,
           operatorv1.SecretName spec = Some secretName →
           GetSecret (ctrlClient (self st))
             (mkObjectKey (GetNamespace provider) secretName) = Err err →
           secretReader provider st
           = Returns (Err err)
               (after st (self st)
                  (CallGetSecret
                     (mkObjectKey (GetNamespace provider) secretName)))).
Proof.
  simpl. split; [apply secretReader_returns |].
  split; [intros r st' Hrun; now apply secretReader_inv in Hrun |].
  split.
  - intros err Hinit. unfold secretReader. run. now rewrite Hinit.
  - intros mr Hinit. split; [| split].
    + intros Hsecret Hfc. unfold secretReader. run.
      now rewrite Hinit, Hsecret, Hfc.
    + intros fc Hsecret Hfc. unfold secretReader. run.
      rewrite Hinit, Hsecret, Hfc. now destruct (operatorv1.URL fc).
    + intros secretName err Hsecret Hget. unfold secretReader. run.
      now rewrite Hinit, Hsecret, Hget.
Qed.

(** ** The reconciler of a new pass *)

(** X17: on the reconciler that [newReconcilePhases] returns, nothing
    is loaded.  It holds the provider, the list, the client and the
    configuration it was given; [fetch] and [validateRepoCAPIVersion]
    panic on it for want of a repository; [install], if it returns, has
    handed nil components to the installer; and [delete] asks the
    installer to delete the identity of the provider with an empty
    version, as neither a record nor a target version is known yet. *)
Theorem newReconcilePhases_has_nothing_loaded
    (r : GenericProviderReconciler) provider
    (providerList : list GenericProvider) :
  let st := fresh r provider providerList in
  let target :=
    clusterctlv1.mkProvider (Name (clusterctlProviderName provider))
      (GetNamespace provider) (GetName provider)
      (ClusterctlProviderType provider) "" "" in
  controllers.provider (self st) = provider
  ∧ controllers.providerList (self st) = providerList
  ∧ ctrlClient (self st) = reconcilerClient r
  ∧ ctrlConfig (self st) = reconcilerConfig r
  ∧ fetch st = Panics
  ∧ validateRepoCAPIVersion provider st = Panics
  ∧ (∀ res st',
       install st = Returns res st' →
       calls st' = [CallInstall None (cluster.mkInstallOptions false 0)])
  ∧ ∃ err,
      delete st
      = Returns (reconcile.empty, err)
          (mkState (set_clusterctlProvider target (self st))
             [CallDelete (cluster.mkDeleteOptions target false false)]).
Proof.
  simpl. do 6 (split; [reflexivity |]). split.
  - intros res st'. unfold install, fresh. run. intros Hrun.
    repeat case_scrutinee; reflexivity.
  - unfold delete, fresh. run. eexists. reflexivity.
Qed.

End PhaseOutcomes.

(** ** The webhook: acceptance and defaulting *)

Section WebhookOutcomes.

Context {Remainder Context_ : Type}.

Implicit Types (spec : webhook.ProviderSpec Remainder).

(** X18: what [validateProviderSpec] accepts.  The list of errors is
    empty exactly when the version is empty or parses as a semantic
    version and the fetch configuration does not set a selector with
    match labels.  It never holds more than two errors; each is an
    invalid-value error on [spec.version] or [spec.fetchConfig], and each
    reports the version as the bad value, the error on the fetch
    configuration too. *)
Theorem validateProviderSpec_accepts_iff spec :
  (webhook.validateProviderSpec spec = []
   ↔ (webhook.Version spec = ""
      ∨ ∃ v, versionutil.ParseSemantic (webhook.Version spec) = Ok v)
     ∧ webhook.selectorAndMatchLabels spec = false)
  ∧ (length (webhook.validateProviderSpec spec) ≤ 2)%nat
  ∧ ∀ e, In e (webhook.validateProviderSpec spec) →
         field.Type_ e = field.ErrorTypeInvalid
         ∧ field.BadValue e = webhook.Version spec
         ∧ (field.Field e = "spec.version"
            ∨ field.Field e = "spec.fetchConfig").
Proof.
  rewrite validateProviderSpec_cases.
  destruct (String.eqb_spec (webhook.Version spec) "") as [Hempty | Hne];
    [| destruct (versionutil.ParseSemantic (webhook.Version spec))
         as [v | err] eqn:Hparse];
    destruct (webhook.selectorAndMatchLabels spec); simpl;
    (split; [split |
             split; [lia |
                     intros e Hin;
                     repeat destruct Hin as [<- | Hin]; try destruct Hin;
                     simpl; auto]]);
    try discriminate; try (intros [_ Hsel]; discriminate Hsel);
    try (intros _; split; [eauto | reflexivity]).
  all: try reflexivity.
  intros [[Hnone | [v Hv]] _]; [contradiction | discriminate Hv].
Qed.

(** X19: [Default] fails exactly on an object that is not a bootstrap
    provider, and then returns the object as it was given.  When the
    defaulting of the spec is idempotent so is [Default]: called on the
    object that a first call left, it leaves the same object and returns
    the same error. *)
Theorem Default_again
    (setDefaultProviderSpec :
       webhook.ProviderSpec Remainder -> string -> webhook.ProviderSpec Remainder)
    (r : webhook.BootstrapProviderWebhook) (ctx : Context_)
    (obj : webhook.Object Remainder) :
  (∀ spec namespace,
     setDefaultProviderSpec (setDefaultProviderSpec spec namespace) namespace
     = setDefaultProviderSpec spec namespace) →
  Default setDefaultProviderSpec r ctx
    (fst (Default setDefaultProviderSpec r ctx obj))
  = Default setDefaultProviderSpec r ctx obj
  ∧ (snd (Default setDefaultProviderSpec r ctx obj) = None
     ↔ ∃ bootstrapProvider, obj = webhook.BootstrapProviderObject bootstrapProvider)
  ∧ (snd (Default setDefaultProviderSpec r ctx obj) ≠ None →
     fst (Default setDefaultProviderSpec r ctx obj) = obj).
Proof.
  intros Hidem. destruct obj as [[ns name spec] | type]; simpl.
  - rewrite Hidem. split; [reflexivity |]. split; [| congruence].
    split; eauto.
  - split; [reflexivity |]. split; [| reflexivity].
    split; [discriminate | intros [b Hb]; discriminate Hb].
Qed.

End WebhookOutcomes.

(** ** The further properties on the scenario *)

Section FurtherOnTheScenario.

Import scenario cases controllers.

Local Existing Instance fakeClusterctl.
Local Existing Instance fakeAPI.

(** Two providers [aws] in [capa-system] with the same key, one pinned
    to a version and one not, are of the same kind. *)
Lemma clusterctlProviderName_same_key_example :
  GetObject (aws unpinned) = GetObject (aws (pinned "v1.5.0"))
  ∧ GetNamespace (aws unpinned) = GetNamespace (aws (pinned "v1.5.0")).
Proof.
  exact (clusterctlProviderName_separates_kinds
           (aws unpinned) (aws (pinned "v1.5.0")) eq_refl eq_refl).
Defined.

(** The upgrade from the recorded v1.0.0 to the components of v2.0.0:
    [preInstall] deletes the identity with the version v1.0.0. *)
Lemma preInstall_upgrade_example :
  ∃ o st',
    preInstall (upgrade "v1.0.0" "v2.0.0")
    = Returns (reconcile.empty, None) st'
    ∧ calls st'
      = [CallEnsureCustomResourceDefinitions;
         CallGetProvider (mkObjectKey "capa-system" "infrastructure-aws");
         CallDelete o]
    ∧ clusterctlv1.Version (cluster.Provider o) = "v1.0.0".
Proof.
  pose (v100 := versionutil.mkVersion [1; 0; 0]%N true "" "").
  pose (v200 := versionutil.mkVersion [2; 0; 0]%N true "" "").
  assert (Hne : ∀ a s, String a s ≠ "") by (intros a s; discriminate).
  destruct (preInstall_upgrade_deletes_recorded_version
              (upgrade "v1.0.0" "v2.0.0") (record_ "v1.0.0") "v2.0.0"
              v100 v200 eq_refl eq_refl (Hne _ _) eq_refl eq_refl eq_refl
              eq_refl)
    as (o & st' & Hrun & Hadded & Hversion & _).
  exists o, st'. split; [exact Hrun |]. split; [exact Hadded | exact Hversion].
Defined.


(** With the components of v2.0.0 fetched and no version pinned, a
    successful [install] pins v2.0.0. *)
Lemma install_success_example :
  ∃ st',
    install (upgrade "v1.0.0" "v2.0.0") = Returns (reconcile.empty, None) st'
    ∧ operatorv1.Version (GetSpec (provider (self st'))) = Some "v2.0.0".
Proof.
  eexists. split.
  - exact (proj1 (proj2 (install_success_pins_version_and_records_contract
                           (upgrade "v1.0.0" "v2.0.0") eq_refl))
             "v2.0.0" eq_refl eq_refl).
  - reflexivity.
Defined.

(** [load] at the start of a pass against the remote repository leaves
    a repository and a contract of the list. *)
Lemma load_success_example :
  load newPass = Returns (reconcile.empty, None) loadedPass
  ∧ (∃ r, repo (self loadedPass) = Some r)
  ∧ allowed (contract (self loadedPass)).
Proof.
  destruct (load_success_leaves_a_loaded_reconciler newPass reconcile.empty
              loadedPass eq_refl)
    as (r & cc & pc & Hrepo & _ & _ & Hallowed & _).
  split; [reflexivity |]. split; [exists r; exact Hrepo | exact Hallowed].
Defined.

(** A repository without the components file: [fetch] fails on the
    read and leaves the reconciler as it was. *)
Lemma fetch_failure_example :
  ∃ err st',
    fetch withoutComponentsFile
    = Returns
        (reconcile.empty,
         Some (PhaseError "ComponentsFetchError" "PreflightCheckPassed"
                 ConditionSeverityWarning err)) st'
    ∧ self st' = self withoutComponentsFile.
Proof.
  do 2 eexists. split.
  - exact (proj1 (fetch_failures withoutComponentsFile (declaring "v1beta1")
                    eq_refl)
             (Errorf "unable to get files for version %s" [opString "v2.0.0"])
             "aws" eq_refl eq_refl).
  - reflexivity.
Defined.

(** With the remote repository loaded, [fetch] sets the components and
    the preflight condition. *)
Lemma fetch_success_example :
  fetch fetching = Returns (reconcile.empty, None) fetched
  ∧ (∃ c, components (self fetched) = Some c)
  ∧ provider (self fetched)
    = conditions_Set (aws unpinned)
        (conditions.TrueCondition "PreflightCheckPassed").
Proof.
  destruct (fetch_sets_preflight_condition_only_on_success (api:=fakeAPI)
              fetching reconcile.empty None fetched eq_refl)
    as (r & _ & _ & Hnil & _).
  split; [reflexivity |]. exact (Hnil eq_refl).
Defined.

(** After the [load] of a new pass, [fetch] returns. *)
Lemma phases_in_order_example :
  load newPass = Returns (reconcile.empty, None) loadedPass
  ∧ ∃ res2 err2 st2, fetch loadedPass = Returns (res2, err2) st2.
Proof.
  destruct (phases_in_order_do_not_panic newPass reconcile.empty loadedPass
              eq_refl)
    as (res2 & err2 & st2 & Hfetch & _).
  split; [reflexivity |]. exists res2, err2, st2. exact Hfetch.
Defined.

(** [Default] with a defaulting that fills an empty namespace, called
    a second time on the bootstrap provider [kubeadm]. *)
Lemma Default_again_example :
  Default namespaceDefaulted webhook.mkBootstrapProviderWebhook tt
    (fst (Default namespaceDefaulted webhook.mkBootstrapProviderWebhook tt
            kubeadm))
  = Default namespaceDefaulted webhook.mkBootstrapProviderWebhook tt kubeadm.
Proof.
  apply (Default_again namespaceDefaulted webhook.mkBootstrapProviderWebhook
           tt kubeadm).
  intros [version fetchConfig rest] namespace.
  unfold namespaceDefaulted. simpl.
  destruct (String.eqb rest "") eqn:Hrest; simpl.
  - now destruct (String.eqb namespace "").
  - now rewrite Hrest.
Defined.

End FurtherOnTheScenario.
